(** * A shallow embedding of the comprehensive backtesting framework

    The development follows [backtesting.py]: the walk-forward splitter, the
    Monte Carlo path simulator, the risk decomposition, the statistical
    validator, the transaction cost model and the orchestrator that chains
    them.

    Conventions of the embedding.
    - Python exceptions are values of [Py.exn], named by their class; a call
      that may raise returns a [Py.result].
    - A float64 is a value of [Np.npf]: an exact rational, or one of the three
      non-finite values [PInf], [NInf], [NaN] that numpy produces where the
      rationals have no answer (division by zero, and what follows from it).
      Rounding, overflow and the sign of zero are not represented: arithmetic
      on finite values is exact.
    - Library routines (numpy, pandas) are written out as far as their
      documented result on the arguments the framework passes; the square
      root, the random generator and the scipy tests are parameters. *)

From Stdlib Require Import ZArith QArith Qround Qpower Lia Lqa List String Sorted.
From stdpp Require Import base option list gmap strings.

#[local] Set Warnings "-abstract-large-number".
Local Open Scope Z_scope.

(** ** Python: exceptions, results, [range] and slices *)
Module Py.

Record exn := Exn { exn_class : string; exn_msg : string }.

Definition ValueError (msg : string) : exn := Exn "ValueError" msg.
Definition KeyError (key : string) : exn := Exn "KeyError" key.
Definition TypeError (msg : string) : exn := Exn "TypeError" msg.

Inductive result (A : Type) : Type :=
| Ok (a : A)
| Raise (e : exn).
Arguments Ok {A} a.
Arguments Raise {A} e.

(** Sequencing: the first exception raised ends the computation. *)
Definition bind {A B} (m : result A) (k : A -> result B) : result B :=
  match m with Ok a => k a | Raise e => Raise e end.

Definition is_ok {A} (r : result A) : bool :=
  match r with Ok _ => true | Raise _ => false end.

(** The number of items of [range(lo, hi, step)] for [step <> 0]. *)
Definition range_length (lo hi step : Z) : Z :=
  if (0 <? step) && (lo <? hi) then 1 + (hi - 1 - lo) / step
  else if (step <? 0) && (hi <? lo) then 1 + (lo - 1 - hi) / (- step)
  else 0.

(** [range(start, stop, step)], with its items listed. *)
Definition range (start stop step : Z) : result (list Z) :=
  if step =? 0 then Raise (ValueError "range() arg 3 must not be zero")
  else Ok ((fun i : nat => start + Z.of_nat i * step)
             <$> seq 0 (Z.to_nat (range_length start stop step))).

(** A slice bound brought into [0, len]: a negative bound counts from the
    end, and a bound past either end is clipped. *)
Definition slice_bound (len i : Z) : Z :=
  if i <? 0 then Z.max (i + len) 0 else Z.min i len.

(** [l[start:stop]], which is also what [.iloc[start:stop]] selects. *)
Definition slice {A} (l : list A) (start stop : Z) : list A :=
  let len := Z.of_nat (length l) in
  let lo := slice_bound len start in
  let hi := slice_bound len stop in
  take (Z.to_nat (hi - lo)) (drop (Z.to_nat lo) l).

End Py.
Import Py.

Notation "'let*' x ':=' m 'in' k" := (Py.bind m (fun x => k))
  (at level 10, x pattern, m at level 100, k at level 200).

(** ** WalkForwardAnalysis *)
Module WalkForward.
Section WithData.
Context {A : Type}.

Record WalkForwardAnalysis := {
  data : list A;
  window_size : Z;
  forecast_horizon : Z
}.

(** [__init__] stores its three arguments. *)
Definition init (d : list A) (w h : Z) : result WalkForwardAnalysis :=
  Ok {| data := d; window_size := w; forecast_horizon := h |}.

(** The body of the loop of [generate_walk_forward_splits] at one [start]. *)
Definition split_at (self : WalkForwardAnalysis) (start : Z) : list A * list A :=
  let train_start := start in
  let train_end := start + window_size self in
  let test_start := train_end in
  let test_end := test_start + forecast_horizon self in
  let train_data := slice (data self) train_start train_end in
  let test_data := slice (data self) test_start test_end in
  (train_data, test_data).

(** The generator object. Calling [generate_walk_forward_splits] runs no
    code of the body: the generator is [Created]; the first [next] evaluates
    the [range] and enters the loop. *)
Inductive gen_state :=
| Created
| Running (pending : list Z)
| Finished.

Inductive gen_event :=
| Yield (pair : list A * list A)
| StopIteration
| Raised (e : exn).

Definition loop_step (self : WalkForwardAnalysis) (pending : list Z)
  : gen_event * gen_state :=
  match pending with
  | [] => (StopIteration, Finished)
  | start :: rest => (Yield (split_at self start), Running rest)
  end.

Definition next (self : WalkForwardAnalysis) (st : gen_state)
  : gen_event * gen_state :=
  match st with
  | Created =>
      match range 0 (Z.of_nat (length (data self)) - window_size self)
                  (forecast_horizon self) with
      | Raise e => (Raised e, Finished)
      | Ok starts => loop_step self starts
      end
  | Running pending => loop_step self pending
  | Finished => (StopIteration, Finished)
  end.

(** A [for] loop over the generator: [next] until it stops or raises.
    [None] when the fuel runs out first. *)
Fixpoint consume (self : WalkForwardAnalysis) (fuel : nat) (st : gen_state)
  : option (result (list (list A * list A))) :=
  match fuel with
  | O => None
  | S fuel' =>
      match next self st with
      | (Yield p, st') =>
          match consume self fuel' st' with
          | Some (Ok ps) => Some (Ok (p :: ps))
          | other => other
          end
      | (StopIteration, _) => Some (Ok [])
      | (Raised e, _) => Some (Raise e)
      end
  end.

(** All the pairs the generator yields, in order. *)
Definition generate_walk_forward_splits (self : WalkForwardAnalysis)
  : result (list (list A * list A)) :=
  let* starts := range 0 (Z.of_nat (length (data self)) - window_size self)
                        (forecast_horizon self) in
  Ok (split_at self <$> starts).

End WithData.
Arguments WalkForwardAnalysis A : clear implicits.
End WalkForward.

(** ** numpy: float64 scalars and one-dimensional arrays *)
Module Np.
Local Open Scope Q_scope.

Inductive npf :=
| Fin (q : Q)
| PInf
| NInf
| NaN.


Definition is_nan (x : npf) : bool :=
  match x with NaN => true | _ => false end.

Definition of_nat (n : nat) : npf := Fin (inject_Z (Z.of_nat n)).

(** The sign of a float, [Eq] for zero (and for [NaN], which has none). *)
Definition sgn (x : npf) : comparison :=
  match x with
  | Fin a => a ?= 0
  | PInf => Gt
  | NInf => Lt
  | NaN => Eq
  end.

Definition sgn_mul (s t : comparison) : comparison :=
  match s, t with
  | Eq, _ | _, Eq => Eq
  | Gt, Gt | Lt, Lt => Gt
  | _, _ => Lt
  end.

(** The infinity of a sign; a zero sign stands for an invalid operation. *)
Definition inf_of (s : comparison) : npf :=
  match s with Gt => PInf | Lt => NInf | Eq => NaN end.

Definition neg (x : npf) : npf :=
  match x with
  | Fin a => Fin (- a)
  | PInf => NInf
  | NInf => PInf
  | NaN => NaN
  end.

Definition add (x y : npf) : npf :=
  match x, y with
  | NaN, _ | _, NaN => NaN
  | Fin a, Fin b => Fin (a + b)
  | PInf, NInf | NInf, PInf => NaN
  | PInf, _ | _, PInf => PInf
  | NInf, _ | _, NInf => NInf
  end.

Definition sub (x y : npf) : npf :=
  match x, y with
  | Fin a, Fin b => Fin (a - b)
  | _, _ => add x (neg y)
  end.

Definition mul (x y : npf) : npf :=
  match x, y with
  | NaN, _ | _, NaN => NaN
  | Fin a, Fin b => Fin (a * b)
  | _, _ => inf_of (sgn_mul (sgn x) (sgn y))
  end.

(** True division of float64 scalars and arrays: dividing by zero raises
    nothing; it gives [NaN] for [0 / 0] and an infinity otherwise. *)
Definition div (x y : npf) : npf :=
  match x, y with
  | NaN, _ | _, NaN => NaN
  | Fin a, Fin b => if Qeq_bool b 0 then inf_of (a ?= 0) else Fin (a / b)
  | Fin _, _ => Fin 0
  | _, Fin b => inf_of (sgn_mul (sgn x) (if Qeq_bool b 0 then Gt else b ?= 0))
  | _, _ => NaN
  end.

(** [x < y] and [x <= y]; both are false when either side is [NaN]. *)
Definition ltb (x y : npf) : bool :=
  match x, y with
  | NaN, _ | _, NaN => false
  | Fin a, Fin b => match a ?= b with Lt => true | _ => false end
  | NInf, NInf | PInf, _ | _, NInf => false
  | _, _ => true
  end.

Definition leb (x y : npf) : bool :=
  match x, y with
  | NaN, _ | _, NaN => false
  | Fin a, Fin b => Qle_bool a b
  | NInf, _ | _, PInf => true
  | _, _ => false
  end.

(** The square root, over a square root [sqrtQ] of the finite values. *)
Definition sqrt (sqrtQ : Q -> Q) (x : npf) : npf :=
  match x with
  | Fin a => match a ?= 0 with Lt => NaN | _ => Fin (sqrtQ a) end
  | PInf => PInf
  | NInf | NaN => NaN
  end.

(** [np.sum] of a one-dimensional array. *)
Definition sum (xs : list npf) : npf := foldr add (Fin 0) xs.

(** [np.mean]: the sum over the count; [NaN] for the empty array. *)
Definition mean (xs : list npf) : npf := div (sum xs) (of_nat (length xs)).

(** [x - x.mean()], the array centred on its mean. *)
Definition centred (xs : list npf) : list npf :=
  let m := mean xs in (fun x => sub x m) <$> xs.

(** [np.var] with its default [ddof=0]: the mean of the squared
    deviations, a division by the count [N]. *)
Definition var (xs : list npf) : npf :=
  let x := centred xs in
  div (sum ((fun d => mul d d) <$> x)) (of_nat (length xs - 0)).

(** [np.std]: the square root of [np.var]. *)
Definition std (sqrtQ : Q -> Q) (xs : list npf) : npf := sqrt sqrtQ (var xs).

Definition dot (xs ys : list npf) : npf := sum (zip_with mul xs ys).

(** [np.cov(x, y)[0, 1]] with the default [ddof=1]: the dot product of the
    centred rows times [1 / fact], where [fact = N - 1], or 0.0 when that is
    not positive. Rows of different lengths cannot be stacked. *)
Definition cov01 (xs ys : list npf) : result npf :=
  if negb (length xs =? length ys)%nat
  then Raise (ValueError
    "all the input array dimensions except for the concatenation axis must match exactly")
  else
    let fact := (length xs - 1)%nat in
    let c := dot (centred xs) (centred ys) in
    Ok (mul c (div (Fin 1) (of_nat fact))).

(** [np.cov(x)] of a single row: its variance with [ddof=1]. *)
Definition cov_self (xs : list npf) : npf :=
  let fact := (length xs - 1)%nat in
  mul (dot (centred xs) (centred xs)) (div (Fin 1) (of_nat fact)).

(** [np.corrcoef] of a one-dimensional array: the scalar covariance
    divided by itself. *)
Definition corrcoef (xs : list npf) : npf :=
  let c := cov_self xs in div c c.

(** [np.cumprod] along a row. *)
Fixpoint cumprod_from (acc : npf) (xs : list npf) : list npf :=
  match xs with
  | [] => []
  | x :: rest => let acc' := mul acc x in acc' :: cumprod_from acc' rest
  end.

Definition cumprod (xs : list npf) : list npf :=
  match xs with
  | [] => []
  | x :: rest => x :: cumprod_from x rest
  end.

(** Sorting an array free of [NaN]. *)
Fixpoint insert (x : npf) (l : list npf) : list npf :=
  match l with
  | [] => [x]
  | y :: l' => if leb x y then x :: l else y :: insert x l'
  end.

Definition sort (l : list npf) : list npf := foldr insert [] l.

(** Linear interpolation between [a] and [b] at [t], computed from the
    nearer end. *)
Definition lerp (a b : npf) (t : Q) : npf :=
  let diff_b_a := sub b a in
  if Qle_bool (1 # 2) t
  then sub b (mul diff_b_a (Fin (1 - t)))
  else add a (mul diff_b_a (Fin t)).

(** [np.percentile(a, q)] with the default linear method: position
    [(n - 1) * q / 100] in the sorted array, interpolated between its two
    neighbours, for [q] between 0 and 100. A [NaN] in the array makes the
    result [NaN]. The empty array is outside what is described here; it is
    given [NaN]. *)
Definition percentile (a : list npf) (q : Q) : npf :=
  if existsb is_nan a then NaN
  else
    let n := length a in
    let s := sort a in
    let virtual_index := inject_Z (Z.of_nat (n - 1)) * (q / 100) in
    let previous := Z.to_nat (Qfloor virtual_index) in
    let gamma := virtual_index - inject_Z (Qfloor virtual_index) in
    if Qle_bool (inject_Z (Z.of_nat (n - 1))) virtual_index
    then lerp (nth (n - 1) s NaN) (nth (n - 1) s NaN) gamma
    else lerp (nth previous s NaN) (nth (S previous) s NaN) gamma.

(** Column [t] of a two-dimensional array given by its rows. *)
Definition column (t : nat) (m : list (list npf)) : list npf :=
  (fun row => nth t row NaN) <$> m.

Definition columns (m : list (list npf)) : list (list npf) :=
  match m with
  | [] => []
  | row :: _ => (fun t => column t m) <$> seq 0 (length row)
  end.

(** [np.percentile(m, qs, axis=0)]: one row per percentile, one entry per
    column. *)
Definition percentile_axis0 (m : list (list npf)) (qs : list Q)
  : list (list npf) :=
  (fun q => (fun col => percentile col q) <$> columns m) <$> qs.

(** [np.random.normal(loc, scale, (rows, cols))]: [loc + scale * z] for the
    standard normal variates [z] the generator hands out, row by row. A
    negative [scale] is refused. *)
Definition random_normal (draws : nat -> Q) (loc scale : npf)
    (rows cols : nat) : result (list (list npf)) :=
  if ltb scale (Fin 0) then Raise (ValueError "scale < 0")
  else Ok ((fun i =>
              (fun j => add loc (mul scale (Fin (draws (i * cols + j)%nat))))
                <$> seq 0 cols)
             <$> seq 0 rows).

End Np.

(** ** MonteCarloSimulation *)
Module MonteCarlo.
Import Np.
Section WithGenerator.

(** The square root of the platform and the variates of the global random
    generator. *)
Variable sqrtQ : Q -> Q.
Variable draws : nat -> Q.

Record MonteCarloSimulation := { returns : list npf }.

(** The dictionary with the keys ['95%'] and ['99%']; each value has two
    rows, the lower and the upper bound, with one entry per period. *)
Record ConfidenceIntervals := {
  ci95 : list (list npf);
  ci99 : list (list npf)
}.


Record SimulationResult := {
  simulations : list (list npf);
  portfolio_values : list (list npf);
  confidence_intervals : ConfidenceIntervals
}.

Definition calculate_confidence_intervals (self : MonteCarloSimulation)
    (portfolio_values : list (list npf)) : ConfidenceIntervals :=
  {| ci95 := percentile_axis0 portfolio_values [25 # 10; 975 # 10];
     ci99 := percentile_axis0 portfolio_values [5 # 10; 995 # 10] |}%Q.

(** [simulate(self, num_simulations=10000, num_periods=252)]; an argument
    the caller leaves out is [None] and takes its default. *)
Definition simulate (self : MonteCarloSimulation)
    (num_simulations num_periods : option nat) : result SimulationResult :=
  let num_simulations := default 10000%nat num_simulations in
  let num_periods := default 252%nat num_periods in
  let mu := mean (returns self) in
  let sigma := std sqrtQ (returns self) in
  let* simulations :=
    random_normal draws mu sigma num_simulations num_periods in
  let portfolio_values :=
    (fun row => cumprod (add (Fin 1) <$> row)) <$> simulations in
  Ok {| simulations := simulations;
        portfolio_values := portfolio_values;
        confidence_intervals :=
          calculate_confidence_intervals self portfolio_values |}.

End WithGenerator.
End MonteCarlo.

(** ** RiskDecomposition *)
Module Risk.
Import Np.
Section WithSqrt.
Variable sqrtQ : Q -> Q.

Record RiskDecomposition := {
  returns : list npf;
  benchmark_returns : list npf
}.

Record RiskReport := {
  market_risk : npf;
  specific_risk : list npf;
  total_risk : npf;
  risk_contribution : list npf
}.

Definition calculate_beta (self : RiskDecomposition) : result npf :=
  let* covariance := cov01 (returns self) (benchmark_returns self) in
  let benchmark_variance := var (benchmark_returns self) in
  Ok (div covariance benchmark_variance).

Definition calculate_specific_risk (self : RiskDecomposition)
  : result (list npf) :=
  let* beta := calculate_beta self in
  let market_component := mul beta <$> benchmark_returns self in
  Ok (zip_with sub (returns self) market_component).

Definition calculate_total_risk (self : RiskDecomposition) : npf :=
  std sqrtQ (returns self).

Definition calculate_risk_contribution (self : RiskDecomposition)
  : list npf :=
  let weight := div (Fin 1) (of_nat (length (returns self))) in
  let portfolio_volatility := std sqrtQ (returns self) in
  (fun r => div (mul weight r) portfolio_volatility) <$> returns self.

Definition decompose_risk (self : RiskDecomposition) : result RiskReport :=
  let* beta := calculate_beta self in
  let* specific := calculate_specific_risk self in
  Ok {| market_risk := beta;
        specific_risk := specific;
        total_risk := calculate_total_risk self;
        risk_contribution := calculate_risk_contribution self |}.

End WithSqrt.
End Risk.

(** ** StatisticalValidator *)
Module Validator.
Import Np.
Section WithLibrary.

(** The tests come from the statistics library; what each returns on a
    sample, or raises, is the library's business. *)
Variable TestResult : Type.

Record StatsLibrary := {
  shapiro : list npf -> result TestResult;
  jarque_bera : list npf -> result TestResult;
  anderson : list npf -> result TestResult;
  acorr_ljungbox : list npf -> result TestResult;
  runs_test : list npf -> result TestResult
}.

Variable stats : StatsLibrary.

Record StatisticalValidator := { returns : list npf }.

Record NormalityTests := {
  shapiro_wilk : TestResult;
  jarque_bera_result : TestResult;
  anderson_result : TestResult
}.

Record IndependenceTests := {
  ljung_box : TestResult;
  runs_test_result : TestResult
}.

Definition normality_tests (self : StatisticalValidator)
  : result NormalityTests :=
  let* sw := shapiro stats (returns self) in
  let* jb := jarque_bera stats (returns self) in
  let* ad := anderson stats (returns self) in
  Ok {| shapiro_wilk := sw; jarque_bera_result := jb; anderson_result := ad |}.

Definition independence_tests (self : StatisticalValidator)
  : result IndependenceTests :=
  let* lb := acorr_ljungbox stats (returns self) in
  let* rt := runs_test stats (returns self) in
  Ok {| ljung_box := lb; runs_test_result := rt |}.

Definition correlation_analysis (self : StatisticalValidator) : npf :=
  corrcoef (returns self).

End WithLibrary.
Arguments shapiro {TestResult} _ _.
Arguments jarque_bera {TestResult} _ _.
Arguments anderson {TestResult} _ _.
Arguments acorr_ljungbox {TestResult} _ _.
Arguments runs_test {TestResult} _ _.
Arguments normality_tests {TestResult} stats self.
Arguments independence_tests {TestResult} stats self.
End Validator.

(** ** TransactionCostModeler *)
Module Cost.
Import Np.

(** A value that is a scalar or a column, as the arithmetic of Python and
    pandas sees it: a scalar combines with every entry of a column. *)
Inductive pyval :=
| Scalar (x : npf)
| Series (xs : list npf).

Definition py_binop (op : npf -> npf -> npf) (a b : pyval) : pyval :=
  match a, b with
  | Scalar x, Scalar y => Scalar (op x y)
  | Scalar x, Series ys => Series (op x <$> ys)
  | Series xs, Scalar y => Series ((fun x => op x y) <$> xs)
  | Series xs, Series ys => Series (zip_with op xs ys)
  end.

(** The built-in [sum]: the items added from the left, starting at 0. *)
Definition py_sum (items : list pyval) : pyval :=
  foldl (py_binop add) (Scalar (Fin 0)) items.

(** [obj[key]] on a dictionary or on the columns of a data frame. *)
Definition getitem {V} (obj : gmap string V) (key : string) : result V :=
  match obj !! key with
  | Some v => Ok v
  | None => Raise (KeyError key)
  end.

Record TransactionCostModeler := { broker_config : gmap string npf }.

Record DetailedCosts := {
  spread_cost : pyval;
  commission : pyval;
  slippage : pyval;
  market_impact : pyval
}.

Record CostReport := {
  detailed_costs : DetailedCosts;
  total_cost_percentage : pyval
}.

Section WithTrades.
Variable self : TransactionCostModeler.
Variable trades : gmap string (list npf).

Definition calculate_spread_cost : result pyval :=
  let* spread := getitem trades "spread" in
  let* volume := getitem trades "volume" in
  Ok (py_binop mul (Series spread) (Series volume)).

Definition calculate_commission : result pyval :=
  let* volume := getitem trades "volume" in
  let* rate := getitem (broker_config self) "commission_rate" in
  Ok (py_binop mul (Series volume) (Scalar rate)).

Definition estimate_slippage : result pyval :=
  let* volume := getitem trades "volume" in
  let* rate := getitem (broker_config self) "slippage_rate" in
  Ok (py_binop mul (Series volume) (Scalar rate)).

Definition calculate_market_impact : result pyval :=
  let* volume := getitem trades "volume" in
  let* rate := getitem (broker_config self) "market_impact_rate" in
  Ok (py_binop mul (Series volume) (Scalar rate)).

Definition estimate_transaction_costs : result CostReport :=
  let* spread_cost := calculate_spread_cost in
  let* commission := calculate_commission in
  let* slippage := estimate_slippage in
  let* market_impact := calculate_market_impact in
  let costs := {| spread_cost := spread_cost; commission := commission;
                  slippage := slippage; market_impact := market_impact |} in
  let* volume := getitem trades "volume" in
  let total_trade_volume := sum volume in
  let total_cost :=
    py_sum [spread_cost; commission; slippage; market_impact] in
  Ok {| detailed_costs := costs;
        total_cost_percentage :=
          py_binop div total_cost (Scalar total_trade_volume) |}.

End WithTrades.
End Cost.

(** ** ComprehensiveBacktestingFramework *)
Module Orchestrator.
Import Np.
Section WithCollaborators.

(** [A]: an observation of the historical data; [S]: the state of the
    strategy object; [R]: what its [simulate] returns for one window. *)
Context {A S R TestResult : Type}.
Variable sqrtQ : Q -> Q.
Variable draws : nat -> Q.
Variable stats : Validator.StatsLibrary TestResult.

Inductive config_value :=
| CfgInt (z : Z)
| CfgArray (xs : list npf)
| CfgDict (d : gmap string npf).

(** The strategy object: [train] and [simulate] may change its state and
    may raise; [returns] and [trades] are read from it afterwards. *)
Record Strategy := {
  train : S -> list A -> result S;
  simulate : S -> list A -> result (R * S);
  strategy_returns : S -> list npf;
  strategy_trades : S -> gmap string (list npf)
}.

Record Framework := {
  strategy : Strategy;
  data : list A;
  config : gmap string config_value
}.

Record StatisticalTests := {
  normality : Validator.NormalityTests TestResult;
  independence : Validator.IndependenceTests TestResult;
  correlation : npf
}.

Record Report := {
  walk_forward_results : list R;
  monte_carlo_simulation : MonteCarlo.SimulationResult;
  risk_analysis : Risk.RiskReport;
  statistical_validation : StatisticalTests;
  transaction_costs : Cost.CostReport
}.

Definition as_int (v : config_value) : result Z :=
  match v with
  | CfgInt z => Ok z
  | _ => Raise (TypeError "an integer is required")
  end.

Definition as_array (v : config_value) : result (list npf) :=
  match v with
  | CfgArray xs => Ok xs
  | _ => Raise (TypeError "an array is required")
  end.

Definition as_dict (v : config_value) : result (gmap string npf) :=
  match v with
  | CfgDict d => Ok d
  | _ => Raise (TypeError "a dictionary is required")
  end.

(** The body of the walk-forward loop, over the pairs still to come. *)
Fixpoint walk_forward_loop (strat : Strategy)
    (pairs : list (list A * list A)) (s : S) : result (list R * S) :=
  match pairs with
  | [] => Ok ([], s)
  | (train_data, test_data) :: rest =>
      let* s1 := train strat s train_data in
      let* (period_results, s2) := simulate strat s1 test_data in
      let* (results, s3) := walk_forward_loop strat rest s2 in
      Ok (period_results :: results, s3)
  end.

(** [self.config[key]], for a key whose value is used as an integer, an
    array or a dictionary. *)
Definition config_int (self : Framework) (key : string) : result Z :=
  let* v := Cost.getitem (config self) key in as_int v.

Definition config_array (self : Framework) (key : string)
  : result (list npf) :=
  let* v := Cost.getitem (config self) key in as_array v.

Definition config_dict (self : Framework) (key : string)
  : result (gmap string npf) :=
  let* v := Cost.getitem (config self) key in as_dict v.

(** 1. Walk Forward Analysis *)
Definition stage_walk_forward (self : Framework) (s : S)
  : result (list R * S) :=
  let* window_size := config_int self "window_size" in
  let* forecast_horizon := config_int self "forecast_horizon" in
  let* walk_forward_analysis :=
    WalkForward.init (data self) window_size forecast_horizon in
  let* pairs :=
    WalkForward.generate_walk_forward_splits walk_forward_analysis in
  walk_forward_loop (strategy self) pairs s.

(** 2. Monte Carlo Simulation: [simulate()] is called without arguments. *)
Definition stage_monte_carlo (self : Framework) (s : S)
  : result MonteCarlo.SimulationResult :=
  let monte_carlo :=
    {| MonteCarlo.returns := strategy_returns (strategy self) s |} in
  MonteCarlo.simulate sqrtQ draws monte_carlo None None.

(** 3. Risk Decomposition *)
Definition stage_risk (self : Framework) (s : S) : result Risk.RiskReport :=
  let* benchmark_returns := config_array self "benchmark_returns" in
  let risk_decomposer :=
    {| Risk.returns := strategy_returns (strategy self) s;
       Risk.benchmark_returns := benchmark_returns |} in
  Risk.decompose_risk sqrtQ risk_decomposer.

(** 4. Statistical Validation *)
Definition stage_validation (self : Framework) (s : S)
  : result StatisticalTests :=
  let stat_validator :=
    {| Validator.returns := strategy_returns (strategy self) s |} in
  let* normality := Validator.normality_tests stats stat_validator in
  let* independence :=
    Validator.independence_tests stats stat_validator in
  Ok {| normality := normality;
        independence := independence;
        correlation := Validator.correlation_analysis stat_validator |}.

(** 5. Transaction Cost Analysis *)
Definition stage_costs (self : Framework) (s : S) : result Cost.CostReport :=
  let* broker_config := config_dict self "broker_config" in
  let cost_modeler := {| Cost.broker_config := broker_config |} in
  Cost.estimate_transaction_costs cost_modeler
    (strategy_trades (strategy self) s).

Definition run_comprehensive_backtest (self : Framework) (s : S)
  : result (Report * S) :=
  let* (walk_forward_results, s') := stage_walk_forward self s in
  let* mc_results := stage_monte_carlo self s' in
  let* risk_analysis := stage_risk self s' in
  let* statistical_tests := stage_validation self s' in
  let* transaction_costs := stage_costs self s' in
  Ok ({| walk_forward_results := walk_forward_results;
         monte_carlo_simulation := mc_results;
         risk_analysis := risk_analysis;
         statistical_validation := statistical_tests;
         transaction_costs := transaction_costs |}, s').

End WithCollaborators.
End Orchestrator.

(** ** Finite samples over the rationals

    The statistics of [Np] on an array of finite values, as rational
    expressions; the lemmas below relate the two. *)
Module Exact.
Local Open Scope Q_scope.

Definition Qsum (qs : list Q) : Q := foldr Qplus 0 qs.

Definition Qcount (qs : list Q) : Q := inject_Z (Z.of_nat (length qs)).

Definition Qmean (qs : list Q) : Q := Qsum qs / Qcount qs.

Definition Qdev (qs : list Q) : list Q := (fun x => x - Qmean qs) <$> qs.

(** The sum of the squared deviations from the mean. *)
Definition Qss (qs : list Q) : Q := Qsum ((fun d => d * d) <$> Qdev qs).

(** The cost of one trade row: its four components, added from 0 in the
    order of the dictionary of costs. *)
Definition row_cost (c s m spread volume : Np.npf) : Np.npf :=
  Np.add (Np.add (Np.add (Np.add (Np.Fin 0) (Np.mul spread volume))
                    (Np.mul volume c))
            (Np.mul volume s))
    (Np.mul volume m).













End Exact.

(** ** Sample inputs used by the examples below *)
Module Samples.

(** 300 daily observations, numbered from 0. *)
Definition history300 : list Z := Z.of_nat <$> seq 0 300.

Definition history5 : list Z := [10; 11; 12; 13; 14].

(** Two returns, and a benchmark that does not move. *)
Definition returns2 : list Np.npf := [Np.Fin 0.25; Np.Fin (-0.25)].

Definition flat_benchmark : list Np.npf := [Np.Fin 0.05; Np.Fin 0.05].

(** A rational square root for the examples: zero at zero, and three
    Newton steps from [(1 + q) / 2] elsewhere. *)
Definition sqrt_newton (q : Q) : Q :=
  (if Qle_bool q 0 then 0
   else
     let x1 := (1 + q) / 2 in
     let x2 := (x1 + q / x1) / 2 in
     Qred ((x2 + q / x2) / 2))%Q.

(** Variates for the examples: -1, -1/2, 0, 1/2, 1 in turn. *)
Definition sample_draws (k : nat) : Q :=
  ((inject_Z (Z.of_nat (k mod 5)) - 2) / 2)%Q.

(** A statistics library whose Shapiro-Wilk test checks its sample the way
    scipy documents it: fewer than three observations are refused with a
    [ValueError]. The statistics themselves are left out ([tt]). *)
Definition refusing_stats : Validator.StatsLibrary unit :=
  {| Validator.shapiro := fun xs =>
       if (length xs <? 3)%nat
       then Raise (ValueError "Data must be at least length 3.")
       else Ok tt;
     Validator.jarque_bera := fun _ => Ok tt;
     Validator.anderson := fun _ => Ok tt;
     Validator.acorr_ljungbox := fun _ => Ok tt;
     Validator.runs_test := fun _ => Ok tt |}.

(** The two-row trade ledger and the broker rates of the cost example. *)
Definition ledger : gmap string (list Np.npf) :=
  <["volume" := [Np.Fin 100; Np.Fin 200]]>
    (<["spread" := [Np.Fin (1 # 100); Np.Fin (2 # 100)]]> ∅).

Definition broker : gmap string Np.npf :=
  <["commission_rate" := Np.Fin (1 # 1000)]>
    (<["slippage_rate" := Np.Fin (5 # 10000)]>
       (<["market_impact_rate" := Np.Fin (1 # 10000)]> ∅)).

End Samples.

(** ** Finite and non-finite floats *)
Module Finite.

(** [np.isfinite]: neither an infinity nor [NaN]. *)
Definition is_finite (x : Np.npf) : bool :=
  match x with Np.Fin _ => true | _ => false end.

End Finite.

(** ** Further sample inputs *)
Module Cases.
Import Orchestrator.

(** A ledger of two trades without volume. *)
Definition idle_ledger : gmap string (list Np.npf) :=
  <["volume" := [Np.Fin 0; Np.Fin 0]]>
    (<["spread" := [Np.Fin (1 # 100); Np.Fin (2 # 100)]]> ∅).

(** A strategy whose state counts the calls of [train]; [simulate] reports
    the length of its test window. *)
Definition counting_strategy : @Strategy Z nat nat :=
  {| train := fun s _ => Ok (S s);
     simulate := fun s window => Ok (length window, s);
     strategy_returns := fun _ => Samples.returns2;
     strategy_trades := fun _ => Samples.ledger |}.

(** A strategy whose training never succeeds. *)
Definition failing_strategy : @Strategy Z nat nat :=
  {| train := fun _ _ => Raise (Exn "TrainingError" "no convergence");
     simulate := fun s window => Ok (length window, s);
     strategy_returns := fun _ => Samples.returns2;
     strategy_trades := fun _ => Samples.ledger |}.

Definition small_config (window horizon : Z) : gmap string config_value :=
  <["window_size" := CfgInt window]>
    (<["forecast_horizon" := CfgInt horizon]>
       (<["benchmark_returns" := CfgArray Samples.flat_benchmark]>
          (<["broker_config" := CfgDict Samples.broker]> ∅))).

Definition small_backtest (strat : @Strategy Z nat nat) (window horizon : Z)
  : @Framework Z nat nat :=
  {| strategy := strat;
     data := Samples.history5;
     config := small_config window horizon |}.

End Cases.

(** * Properties of the walk-forward splitter *)
Section WalkForwardFacts.
Import WalkForward.
Context {A : Type}.
Implicit Types (d : list A) (self : WalkForwardAnalysis A).

Lemma range_length_forward (n step : Z) :
  0 < step -> 0 < n -> range_length 0 n step = 1 + (n - 1) / step.
Proof.
  intros Hs Hn. unfold range_length.
  destruct (Z.ltb_spec 0 step); [|lia].
  destruct (Z.ltb_spec 0 n); [|lia]. simpl. f_equal. f_equal. lia.
Qed.

Lemma range_length_empty (n step : Z) :
  0 < step -> n <= 0 -> range_length 0 n step = 0.
Proof.
  intros Hs Hn. unfold range_length.
  destruct (Z.ltb_spec 0 step); [|lia].
  destruct (Z.ltb_spec 0 n); [lia|]. simpl.
  destruct (Z.ltb_spec step 0); [lia|]. reflexivity.
Qed.

(** The ceiling of [n / step], written with the floor. *)
Lemma ceil_as_floor (n step : Z) :
  0 < step -> 1 + (n - 1) / step = (n + step - 1) / step.
Proof.
  intros Hs. replace (n + step - 1) with (n - 1 + 1 * step) by lia.
  rewrite Z.div_add by lia. lia.
Qed.

Lemma range_index_bound (n step : Z) (i : nat) :
  0 < step -> (i < Z.to_nat (range_length 0 n step))%nat ->
  Z.of_nat i * step < n.
Proof.
  intros Hs Hi.
  destruct (Z.lt_ge_cases 0 n) as [Hn|Hn].
  - rewrite range_length_forward in Hi by lia.
    assert (0 <= (n - 1) / step) by (apply Z.div_pos; lia).
    assert (Z.of_nat i <= (n - 1) / step) by lia.
    assert (step * ((n - 1) / step) <= n - 1) by (apply Z.mul_div_le; lia).
    nia.
  - rewrite range_length_empty in Hi by lia. simpl in Hi. lia.
Qed.

(** A slice with bounds [0 <= a <= b] takes [b - a] items from position
    [a], or as many as there are. *)
Lemma slice_take_drop (l : list A) (a b : Z) :
  0 <= a -> a <= b ->
  slice l a b = take (Z.to_nat (b - a)) (drop (Z.to_nat a) l).
Proof.
  intros Ha Hab. unfold slice, slice_bound.
  destruct (Z.ltb_spec a 0); [lia|]. destruct (Z.ltb_spec b 0); [lia|].
  set (len := Z.of_nat (length l)).
  destruct (Z.le_gt_cases a len) as [Hal|Hal].
  - rewrite (Z.min_l a len) by lia.
    destruct (Z.le_gt_cases b len) as [Hbl|Hbl].
    + rewrite (Z.min_l b len) by lia. reflexivity.
    + rewrite (Z.min_r b len) by lia.
      rewrite !take_ge; [reflexivity| |]; rewrite length_drop; subst len; lia.
  - rewrite (Z.min_r a len), (Z.min_r b len) by lia.
    rewrite Z.sub_diag. simpl. rewrite take_0.
    rewrite drop_ge by (subst len; lia). symmetry. apply take_nil.
Qed.

Lemma splits_ok self :
  forecast_horizon self <> 0 ->
  generate_walk_forward_splits self =
    Ok (split_at self <$>
          ((fun i : nat => 0 + Z.of_nat i * forecast_horizon self) <$>
             seq 0 (Z.to_nat (range_length 0
                      (Z.of_nat (length (data self)) - window_size self)
                      (forecast_horizon self))))).
Proof.
  intros Hh. unfold generate_walk_forward_splits, range.
  destruct (Z.eqb_spec (forecast_horizon self) 0); [contradiction|]. reflexivity.
Qed.

Lemma splits_lookup self (i : nat) :
  forecast_horizon self <> 0 ->
  (i < Z.to_nat (range_length 0
         (Z.of_nat (length (data self)) - window_size self)
         (forecast_horizon self)))%nat ->
  exists ps, generate_walk_forward_splits self = Ok ps /\
    ps !! i = Some (split_at self (Z.of_nat i * forecast_horizon self)).
Proof.
  intros Hh Hi. eexists. split; [apply splits_ok; assumption|].
  rewrite !list_lookup_fmap, lookup_seq_lt by assumption. reflexivity.
Qed.

(** Looping over the generator collects exactly the pairs of
    [generate_walk_forward_splits], or raises what it raises. *)
Lemma consume_running self (pending : list Z) :
  consume self (S (length pending)) (Running pending) =
    Some (Ok (split_at self <$> pending)).
Proof.
  induction pending as [|s rest IH]; [reflexivity|].
  change (consume self (S (length (s :: rest))) (Running (s :: rest)))
    with (match consume self (S (length rest)) (Running rest) with
          | Some (Ok ps) => Some (Ok (split_at self s :: ps))
          | other => other
          end).
  rewrite IH. reflexivity.
Qed.

Lemma consume_generator self :
  exists fuel, consume self fuel Created = Some (generate_walk_forward_splits self).
Proof.
  unfold generate_walk_forward_splits.
  destruct (range 0 (Z.of_nat (length (data self)) - window_size self)
              (forecast_horizon self)) as [starts|e] eqn:Hr.
  - destruct starts as [|s rest].
    + exists 1%nat. simpl. rewrite Hr. reflexivity.
    + exists (S (S (length rest))).
      change (consume self (S (S (length rest))) Created)
        with (match next self Created with
              | (Yield p, st') =>
                  match consume self (S (length rest)) st' with
                  | Some (Ok ps) => Some (Ok (p :: ps))
                  | other => other
                  end
              | (StopIteration, _) => Some (Ok [])
              | (Raised e, _) => Some (Raise e)
              end).
      unfold next. rewrite Hr. simpl loop_step. cbv iota beta.
      rewrite consume_running. reflexivity.
  - exists 1%nat. simpl. rewrite Hr. reflexivity.
Qed.

End WalkForwardFacts.

Section WalkForwardClaims.
Import WalkForward.
Context {A : Type}.
Implicit Types (d : list A).

(** C1 (amended). With a forecast horizon [H >= 1], the generator yields
    [ceil((N - W) / H)] pairs when [W < N] and none when [N <= W]; it raises
    in neither case. *)
Theorem walk_forward_split_count d (W H : Z) :
  1 <= H ->
  exists ps,
    generate_walk_forward_splits
      {| data := d; window_size := W; forecast_horizon := H |} = Ok ps /\
    Z.of_nat (length ps) =
      (if W <? Z.of_nat (length d)
       then (Z.of_nat (length d) - W + H - 1) / H
       else 0).
Proof.
  intros HH. eexists. split; [apply splits_ok; simpl; lia|].
  rewrite !length_fmap, length_seq. simpl.
  destruct (Z.ltb_spec W (Z.of_nat (length d))) as [Hlt|Hge].
  - rewrite range_length_forward by lia.
    rewrite ceil_as_floor by lia.
    rewrite Z2Nat.id; [f_equal; lia|].
    apply Z.div_pos; lia.
  - rewrite range_length_empty by lia. reflexivity.
Qed.

(** The count of C1 against the floor: they agree exactly when [H] divides
    [N - W]; otherwise the generator yields one pair more. *)
Lemma ceil_floor_gap (n H : Z) :
  1 <= H -> 0 < n ->
  (n + H - 1) / H = n / H + (if n mod H =? 0 then 0 else 1).
Proof.
  intros HH Hn.
  pose proof (Z.div_mod n H ltac:(lia)) as Hdm.
  pose proof (Z.mod_pos_bound n H ltac:(lia)) as Hb.
  destruct (Z.eqb_spec (n mod H) 0) as [Hz|Hz].
  - replace (n + H - 1) with ((H - 1) + (n / H) * H) by lia.
    rewrite Z.div_add by lia. rewrite Z.div_small by lia. lia.
  - replace (n + H - 1) with ((n mod H - 1) + (n / H + 1) * H) by lia.
    rewrite Z.div_add by lia. rewrite Z.div_small by lia. lia.
Qed.

(** C2 (amended). With [W >= 1] and [H >= 1] the i-th pair is the slice pair
    at start [i * H]: its train slice is the [W] items from [i * H]; its test
    slice starts at [i * H + W] and holds the next [H] items or, for a
    trailing window, the [N - (i * H + W)] that remain: at least one, and
    fewer than [H] exactly when [i * H + W + H > N]. *)
Theorem walk_forward_pair_ranges d (W H : Z) :
  1 <= W -> 1 <= H ->
  exists ps,
    generate_walk_forward_splits
      {| data := d; window_size := W; forecast_horizon := H |} = Ok ps /\
    forall i : nat, (i < length ps)%nat ->
      let start := (i * Z.to_nat H)%nat in
      let train := take (Z.to_nat W) (drop start d) in
      let test := take (Z.to_nat H) (drop (start + Z.to_nat W) d) in
      ps !! i = Some (train, test) /\
      length train = Z.to_nat W /\
      length test = Nat.min (Z.to_nat H) (length d - (start + Z.to_nat W)) /\
      (1 <= length test)%nat.
Proof.
  intros HW HH. eexists. split; [apply splits_ok; simpl; lia|].
  intros i Hi. rewrite !length_fmap, length_seq in Hi. simpl in Hi.
  pose proof (range_index_bound (Z.of_nat (length d) - W) H i ltac:(lia) Hi) as Hb.
  intros start train test.
  assert (Hstart : Z.of_nat start = Z.of_nat i * H) by (subst start; lia).
  assert (Htrain : length train = Z.to_nat W).
  { subst train. rewrite length_take, length_drop. lia. }
  assert (Htest : length test =
            Nat.min (Z.to_nat H) (length d - (start + Z.to_nat W))).
  { subst test. rewrite length_take, length_drop. reflexivity. }
  split; [|split; [exact Htrain|split; [exact Htest|lia]]].
  rewrite !list_lookup_fmap, lookup_seq_lt by assumption. simpl.
  unfold split_at. simpl. rewrite !slice_take_drop by lia.
  subst train test start. f_equal. f_equal; f_equal; f_equal; lia.
Qed.

(** C7 (amended). Neither [__init__] nor the generator validates its
    configuration. Construction stores any [W] and [H]. The only failure is
    the [ValueError] of [range] for [H = 0], raised when the generator is
    first advanced; every other value of [W] and [H], negative or zero,
    runs to completion without an error. *)
Theorem walk_forward_no_validation d (W H : Z) :
  let self := {| data := d; window_size := W; forecast_horizon := H |} in
  init d W H = Ok self /\
  (forall e, fst (next self Created) = Raised e <->
             H = 0 /\ e = ValueError "range() arg 3 must not be zero") /\
  is_ok (generate_walk_forward_splits self) = negb (H =? 0).
Proof.
  intros self. split; [reflexivity|]. split.
  - intros e. unfold next, range. simpl.
    destruct (Z.eqb_spec H 0) as [Hz|Hz]; simpl.
    + split; [intros [= <-]; auto | intros [_ ->]; reflexivity].
    + split; [|intros [? _]; contradiction].
      destruct (Z.to_nat _); simpl; discriminate.
  - unfold generate_walk_forward_splits, range. simpl.
    destruct (Z.eqb_spec H 0); reflexivity.
Qed.

End WalkForwardClaims.

(** The count on 300 observations with [W = 252] and [H = 21]. *)
Lemma walk_forward_split_count_witness :
  1 <= 21 /\
  exists ps,
    WalkForward.generate_walk_forward_splits
      {| WalkForward.data := Samples.history300;
         WalkForward.window_size := 252;
         WalkForward.forecast_horizon := 21 |} = Ok ps /\
    Z.of_nat (length ps) =
      (if 252 <? Z.of_nat (length Samples.history300)
       then (Z.of_nat (length Samples.history300) - 252 + 21 - 1) / 21
       else 0).
Proof.
  split; [lia | apply (walk_forward_split_count Samples.history300 252 21); lia].
Defined.

(** C1 fails as stated: 300 observations with [W = 252] and [H = 21] give
    three pairs, not [floor(48 / 21) = 2]; and five observations with [W = 3]
    and [H = 4] give one pair although [W + H > N]. *)
Lemma walk_forward_count_exceeds_floor :
  (exists ps,
     WalkForward.generate_walk_forward_splits
       {| WalkForward.data := Samples.history300;
          WalkForward.window_size := 252;
          WalkForward.forecast_horizon := 21 |} = Ok ps /\
     length ps = 3%nat) /\
  (300 - 252) / 21 = 2 /\
  WalkForward.generate_walk_forward_splits
    {| WalkForward.data := Samples.history5;
       WalkForward.window_size := 3;
       WalkForward.forecast_horizon := 4 |} = Ok [([10; 11; 12], [13; 14])].
Proof.
  split; [eexists; split; [vm_compute; reflexivity|reflexivity]|].
  split; reflexivity.
Qed.

(** The pairs on five observations with [W = 2] and [H = 2]. *)
Lemma walk_forward_pair_ranges_witness :
  1 <= 2 /\ 1 <= 2 /\
  exists ps,
    WalkForward.generate_walk_forward_splits
      {| WalkForward.data := Samples.history5;
         WalkForward.window_size := 2;
         WalkForward.forecast_horizon := 2 |} = Ok ps /\
    forall i : nat, (i < length ps)%nat ->
      let start := (i * Z.to_nat 2)%nat in
      let train := take (Z.to_nat 2) (drop start Samples.history5) in
      let test := take (Z.to_nat 2) (drop (start + Z.to_nat 2) Samples.history5) in
      ps !! i = Some (train, test) /\
      length train = Z.to_nat 2 /\
      length test = Nat.min (Z.to_nat 2)
                      (length Samples.history5 - (start + Z.to_nat 2)) /\
      (1 <= length test)%nat.
Proof.
  split; [lia|]. split; [lia|].
  apply (walk_forward_pair_ranges Samples.history5 2 2); lia.
Defined.

(** C2 fails as stated: on five observations with [W = 2] and [H = 2] the
    second pair has the test range [4, 6), which runs past the end; the
    generator yields it with the single item that is left. *)
Lemma walk_forward_partial_test_window :
  WalkForward.generate_walk_forward_splits
    {| WalkForward.data := Samples.history5;
       WalkForward.window_size := 2;
       WalkForward.forecast_horizon := 2 |}
  = Ok [([10; 11], [12; 13]); ([12; 13], [14])].
Proof. reflexivity. Qed.

(** C7 fails as stated: a window size of 0 or -1 and a forecast horizon of
    -1 are accepted, and pairs are produced (or none) without any error. *)
Lemma walk_forward_accepts_nonpositive :
  WalkForward.init Samples.history5 0 2
    = Ok {| WalkForward.data := Samples.history5;
            WalkForward.window_size := 0;
            WalkForward.forecast_horizon := 2 |} /\
  WalkForward.generate_walk_forward_splits
    {| WalkForward.data := Samples.history5;
       WalkForward.window_size := 0;
       WalkForward.forecast_horizon := 2 |}
    = Ok [([], [10; 11]); ([], [12; 13]); ([], [14])] /\
  WalkForward.generate_walk_forward_splits
    {| WalkForward.data := Samples.history5;
       WalkForward.window_size := -1;
       WalkForward.forecast_horizon := 3 |}
    = Ok [([10; 11; 12; 13], []); ([], [12; 13; 14])] /\
  WalkForward.generate_walk_forward_splits
    {| WalkForward.data := Samples.history5;
       WalkForward.window_size := 7;
       WalkForward.forecast_horizon := -1 |}
    = Ok [([10; 11; 12; 13; 14], []); ([14], [])].
Proof. repeat split. Qed.

(** * Properties of the transaction cost model *)
Section CostFacts.
Import Np Cost Exact.
Local Open Scope Q_scope.

Lemma per_row_fusion (c s m T : npf) (spread volume : list npf) :
  (fun x => div x T) <$>
    zip_with add
      (zip_with add
         (zip_with add (add (Fin 0) <$> zip_with mul spread volume)
            ((fun v => mul v c) <$> volume))
         ((fun v => mul v s) <$> volume))
      ((fun v => mul v m) <$> volume)
  = zip_with (fun sp v => div (row_cost c s m sp v) T) spread volume.
Proof.
  revert volume. induction spread as [|sp spread IH]; intros [|v volume];
    try reflexivity.
  cbn [zip_with fmap list_fmap]. f_equal. apply IH.
Qed.

(** On a data frame the total cost is a column, and so is
    [total_cost_percentage]: entry [i] is the cost of row [i] over the total
    volume. The entries are never added up. *)
Lemma total_cost_percentage_series (self : TransactionCostModeler)
    (trades : gmap string (list npf)) (spread volume : list npf)
    (c s m : npf) :
  trades !! "spread" = Some spread ->
  trades !! "volume" = Some volume ->
  broker_config self !! "commission_rate" = Some c ->
  broker_config self !! "slippage_rate" = Some s ->
  broker_config self !! "market_impact_rate" = Some m ->
  exists report,
    estimate_transaction_costs self trades = Ok report /\
    total_cost_percentage report =
      Series (zip_with (fun sp v => div (row_cost c s m sp v) (sum volume))
                spread volume).
Proof.
  intros Hsp Hv Hc Hs Hm.
  unfold estimate_transaction_costs, calculate_spread_cost,
    calculate_commission, estimate_slippage, calculate_market_impact, getitem.
  rewrite Hsp, Hv, Hc, Hs, Hm. cbn [bind].
  eexists. split; [reflexivity|].
  cbn [total_cost_percentage py_sum foldl py_binop].
  f_equal. apply per_row_fusion.
Qed.

End CostFacts.

(** C3, at the ledger of the claim: [{volume=100, spread=0.01}],
    [{volume=200, spread=0.02}] with rates 0.001, 0.0005 and 0.0001.
    [total_cost_percentage] is the column [1.16/300, 4.32/300], one entry
    per trade; the single value 5.48/300 of the claim is the sum of its
    entries, which the code does not take. *)
Theorem total_cost_percentage_per_row :
  exists report a b,
    Cost.estimate_transaction_costs
      {| Cost.broker_config := Samples.broker |} Samples.ledger = Ok report /\
    Cost.total_cost_percentage report = Cost.Series [Np.Fin a; Np.Fin b] /\
    (a == 1.16 / 300 /\ b == 4.32 / 300 /\ a + b == 5.48 / 300)%Q.
Proof.
  eexists. eexists. eexists. split; [vm_compute; reflexivity|].
  split; [reflexivity|]. repeat split.
Qed.

(** * Arrays of finite values *)
Section FiniteArrays.
Import Np Exact.
Local Open Scope Q_scope.
Implicit Types (qs : list Q) (xs : list npf).

Lemma div_fin (a b : Q) : ~ b == 0 -> div (Fin a) (Fin b) = Fin (a / b).
Proof.
  intros Hb. unfold div. destruct (Qeq_bool b 0) eqn:E; [|reflexivity].
  apply Qeq_bool_eq in E. contradiction.
Qed.

Lemma div_by_zero (a b : Q) : b == 0 -> div (Fin a) (Fin b) = inf_of (a ?= 0).
Proof.
  intros Hb. unfold div. destruct (Qeq_bool b 0) eqn:E; [reflexivity|].
  apply Qeq_bool_neq in E. contradiction.
Qed.

Lemma Qcount_pos qs : qs <> [] -> 0 < Qcount qs.
Proof.
  intros Hne. unfold Qcount. destruct qs; [contradiction|].
  change 0 with (inject_Z 0). rewrite <- Zlt_Qlt. simpl length. lia.
Qed.

Lemma Qcount_nonzero qs : qs <> [] -> ~ Qcount qs == 0.
Proof. intros Hne Hz. pose proof (Qcount_pos qs Hne) as Hp. rewrite Hz in Hp. apply (Qlt_irrefl 0 Hp). Qed.

Lemma sum_fin qs : sum (Fin <$> qs) = Fin (Qsum qs).
Proof.
  induction qs as [|q qs IH]; [reflexivity|].
  cbn [fmap list_fmap]. unfold sum, Qsum in *. cbn [foldr].
  fold (list_fmap Q npf Fin qs). rewrite IH. reflexivity.
Qed.

Lemma mean_fin qs : qs <> [] -> mean (Fin <$> qs) = Fin (Qmean qs).
Proof.
  intros Hne. unfold mean, Qmean. rewrite sum_fin, length_fmap.
  apply div_fin. apply Qcount_nonzero, Hne.
Qed.

Lemma centred_fin qs : qs <> [] -> centred (Fin <$> qs) = Fin <$> Qdev qs.
Proof.
  intros Hne. unfold centred, Qdev. rewrite mean_fin by assumption.
  rewrite <- !list_fmap_compose. reflexivity.
Qed.

Lemma var_fin qs : qs <> [] -> var (Fin <$> qs) = Fin (Qss qs / Qcount qs).
Proof.
  intros Hne. unfold var, Qss. rewrite centred_fin by assumption.
  rewrite <- list_fmap_compose.
  change ((fun d => mul d d) ∘ Fin) with (Fin ∘ (fun d : Q => d * d)).
  rewrite list_fmap_compose, sum_fin, length_fmap, Nat.sub_0_r.
  apply div_fin. apply Qcount_nonzero, Hne.
Qed.

Lemma zip_with_mul_fin qs1 qs2 :
  zip_with mul (Fin <$> qs1) (Fin <$> qs2) = Fin <$> zip_with Qmult qs1 qs2.
Proof.
  revert qs2. induction qs1 as [|a qs1 IH]; intros [|b qs2]; try reflexivity.
  cbn [fmap list_fmap zip_with]. f_equal. apply IH.
Qed.

Lemma dot_fin qs1 qs2 :
  dot (Fin <$> qs1) (Fin <$> qs2) = Fin (Qsum (zip_with Qmult qs1 qs2)).
Proof. unfold dot. rewrite zip_with_mul_fin. apply sum_fin. Qed.

Lemma zip_with_diag {A B} (f : A -> A -> B) (l : list A) :
  zip_with f l l = (fun x => f x x) <$> l.
Proof. induction l as [|x l IH]; [reflexivity|]. cbn. f_equal. exact IH. Qed.

(** A sum of squares is not negative, and it is zero only when every term
    is. *)
Lemma Qsum_squares_nonneg qs : 0 <= Qsum ((fun d => d * d) <$> qs).
Proof.
  induction qs as [|q qs IH]; [apply Qle_refl|].
  cbn [fmap list_fmap]. unfold Qsum in *. cbn [foldr].
  fold (list_fmap Q Q (fun d => d * d) qs). nra.
Qed.


End FiniteArrays.

(** * Properties of the risk decomposition *)
Section RiskFacts.
Import Np Exact Risk.
Local Open Scope Q_scope.

Lemma Qcount_pred qs :
  (2 <= length qs)%nat ->
  inject_Z (Z.of_nat (length qs - 1)) == Qcount qs - 1.
Proof.
  intros Hn. unfold Qcount.
  rewrite Nat2Z.inj_sub by lia. unfold Z.sub at 1.
  rewrite inject_Z_plus, inject_Z_opp. reflexivity.
Qed.

Lemma cov01_fin (qs1 qs2 : list Q) :
  length qs1 = length qs2 -> (2 <= length qs1)%nat ->
  cov01 (Fin <$> qs1) (Fin <$> qs2) =
    Ok (Fin (Qsum (zip_with Qmult (Qdev qs1) (Qdev qs2))
             * (1 / inject_Z (Z.of_nat (length qs1 - 1))))).
Proof.
  intros Hlen Hn. unfold cov01. rewrite !length_fmap, <- Hlen, Nat.eqb_refl.
  cbn [negb]. assert (qs1 <> []) by (destruct qs1; [simpl in Hn; lia|discriminate]).
  assert (qs2 <> []) by (destruct qs2; [simpl in Hlen; lia|discriminate]).
  rewrite !centred_fin, dot_fin by assumption.
  unfold of_nat. rewrite div_fin; [reflexivity|].
  rewrite Qcount_pred by assumption.
  pose proof (Qcount_pos qs1 ltac:(assumption)) as Hp.
  assert (Hc : 2 <= Qcount qs1).
  { unfold Qcount. change 2 with (inject_Z 2). rewrite <- Zle_Qle. lia. }
  intros Hz. lra.
Qed.

(** A series against itself: the covariance divides the sum of squares by
    [N - 1], the variance divides it by [N], and beta is their quotient
    [N / (N - 1)]. *)
Lemma beta_of_series_against_itself (qs : list Q) :
  (2 <= length qs)%nat -> ~ Qss qs == 0 ->
  exists beta,
    calculate_beta {| returns := Fin <$> qs; benchmark_returns := Fin <$> qs |}
      = Ok (Fin beta) /\
    beta == Qcount qs / (Qcount qs - 1).
Proof.
  intros Hn Hss. unfold calculate_beta. cbn [returns benchmark_returns].
  rewrite cov01_fin by auto. cbn [bind].
  assert (Hne : qs <> []) by (destruct qs; [simpl in Hn; lia|discriminate]).
  rewrite var_fin by assumption.
  pose proof (Qcount_pos qs Hne) as Hp.
  assert (Hc : 2 <= Qcount qs).
  { unfold Qcount. change 2 with (inject_Z 2). rewrite <- Zle_Qle. lia. }
  rewrite zip_with_diag. fold (Qss qs).
  rewrite div_fin.
  - eexists. split; [reflexivity|].
    rewrite Qcount_pred by assumption. field. repeat split; lra.
  - intros Hz. apply Hss.
    assert (Hq : Qss qs == (Qss qs / Qcount qs) * Qcount qs) by (field; lra).
    rewrite Hq, Hz. ring.
Qed.











End RiskFacts.




(** C4, at the returns [0.25, -0.25] taken as their own benchmark: beta is
    2, not 1, and the specific risk is [-0.25, 0.25], not the zero series.
    The covariance is the sample one (a division by [N - 1]), the variance
    the population one (a division by [N]). *)
Theorem beta_against_itself_is_not_one :
  exists beta s0 s1,
    Risk.calculate_beta
      {| Risk.returns := Samples.returns2;
         Risk.benchmark_returns := Samples.returns2 |} = Ok (Np.Fin beta) /\
    Risk.calculate_specific_risk
      {| Risk.returns := Samples.returns2;
         Risk.benchmark_returns := Samples.returns2 |}
      = Ok [Np.Fin s0; Np.Fin s1] /\
    (beta == 2 /\ s0 == -0.25 /\ s1 == 0.25)%Q.
Proof.
  eexists. eexists. eexists. split; [vm_compute; reflexivity|].
  split; [vm_compute; reflexivity|]. repeat split.
Qed.

(** * Percentiles of finite samples *)
Section PercentileFacts.
Import Np Exact.
Local Open Scope Q_scope.
Implicit Types (qs s : list Q).










End PercentileFacts.

Section SortedSamples.
Import Exact.
Local Open Scope Q_scope.
Implicit Types (qs s : list Q).















End SortedSamples.

(** * Properties of the Monte Carlo simulation *)
Section SimulationFacts.
Import Np Exact MonteCarlo.
Local Open Scope Q_scope.
Variable sqrtQ : Q -> Q.
Variable draws : nat -> Q.














End SimulationFacts.

Section DeterministicPaths.
Import Np Exact MonteCarlo.
Local Open Scope Q_scope.




Variable draws : nat -> Q.



End DeterministicPaths.

Section SimulationClaims.
Import Np Exact MonteCarlo.
Local Open Scope Q_scope.
Variable sqrtQ : Q -> Q.
Variable draws : nat -> Q.



End SimulationClaims.

(** Every non-empty sample of finite returns has a finite mean and, for a
    square root that is never negative, a finite standard deviation that is
    not negative: the samples the two theorems above speak of. *)
Lemma finite_sample_moments (sqrtQ : Q -> Q) (qs : list Q) :
  qs <> [] ->
  (forall q : Q, (0 <= q)%Q -> (0 <= sqrtQ q)%Q) ->
  exists mu sigma : Q,
    Np.mean (Np.Fin <$> qs) = Np.Fin mu /\
    Np.std sqrtQ (Np.Fin <$> qs) = Np.Fin sigma /\
    (0 <= sigma)%Q.
Proof.
  intros Hne Hsqrt.
  exists (Exact.Qmean qs), (sqrtQ (Exact.Qss qs / Exact.Qcount qs)%Q).
  assert (Hvar : (0 <= Exact.Qss qs / Exact.Qcount qs)%Q).
  { apply Qle_shift_div_l; [apply Qcount_pos, Hne|].
    rewrite Qmult_0_l. apply Qsum_squares_nonneg. }
  split; [apply mean_fin, Hne|]. split; [|apply Hsqrt, Hvar].
  unfold Np.std. rewrite var_fin by exact Hne. unfold Np.sqrt.
  destruct (Exact.Qss qs / Exact.Qcount qs ?= 0)%Q eqn:E; try reflexivity.
  apply Qlt_alt in E. exfalso. apply (Qlt_not_le _ _ E Hvar).
Qed.

(** * Properties of the statistical validator *)
Section ValidatorClaims.
Import Np Validator.
Variable TestResult : Type.
Variable stats : StatsLibrary TestResult.

(** C6 (amended). [normality_tests] checks nothing itself, whatever the
    length of the sample: it returns exactly when the three library tests
    return, with their results, and otherwise raises the exception of the
    first library test that fails, unchanged. *)
Theorem normality_tests_propagates (self : StatisticalValidator) :
  let xs := returns self in
  (forall e,
     normality_tests stats self = Raise e <->
     shapiro stats xs = Raise e \/
     (Py.is_ok (shapiro stats xs) = true /\ jarque_bera stats xs = Raise e) \/
     (Py.is_ok (shapiro stats xs) = true /\
      Py.is_ok (jarque_bera stats xs) = true /\ anderson stats xs = Raise e)) /\
  (forall sw jb ad,
     normality_tests stats self =
       Ok {| shapiro_wilk := sw; jarque_bera_result := jb; anderson_result := ad |}
     <->
     shapiro stats xs = Ok sw /\ jarque_bera stats xs = Ok jb /\
     anderson stats xs = Ok ad).
Proof.
  intros xs. subst xs. unfold normality_tests.
  destruct (shapiro stats (returns self)) as [sw0|e0];
    destruct (jarque_bera stats (returns self)) as [jb0|e1];
    destruct (anderson stats (returns self)) as [ad0|e2];
    cbn [bind Py.is_ok]; split; intros; intuition congruence.
Qed.

End ValidatorClaims.

(** C6 fails as stated: with a library whose Shapiro-Wilk test refuses a
    sample of fewer than three observations, the sample [0.25, -0.25] of
    length 2 makes [normality_tests] raise that library's [ValueError]; there
    is no [InsufficientData]. *)
Lemma normality_tests_raises_library_error :
  length Samples.returns2 = 2%nat /\
  Validator.normality_tests Samples.refusing_stats
    {| Validator.returns := Samples.returns2 |}
    = Raise (ValueError "Data must be at least length 3.") /\
  Py.exn_class (ValueError "Data must be at least length 3.")
    <> "InsufficientData"%string.
Proof. repeat split. discriminate. Qed.

(** * Properties of the orchestrator *)
Section OrchestratorClaims.
Import Np MonteCarlo Orchestrator.
Context {A S R : Type}.
Variable sqrtQ : Q -> Q.
Variable draws : nat -> Q.

Lemma cumprod_from_length (acc : npf) (xs : list npf) :
  length (cumprod_from acc xs) = length xs.
Proof.
  revert acc. induction xs as [|x xs IH]; intros acc; [reflexivity|].
  simpl. f_equal. apply IH.
Qed.

Lemma cumprod_length (xs : list npf) : length (cumprod xs) = length xs.
Proof.
  destruct xs as [|x xs]; [reflexivity|]. simpl. f_equal.
  apply cumprod_from_length.
Qed.

Lemma random_normal_shape (loc scale : npf) (rows cols : nat)
    (m : list (list npf)) :
  random_normal draws loc scale rows cols = Ok m ->
  length m = rows /\ Forall (fun row => length row = cols) m.
Proof.
  unfold random_normal. destruct (ltb scale (Fin 0)); [discriminate|].
  intros [= <-]. split; [rewrite length_fmap; apply length_seq|].
  apply List.Forall_forall. intros row Hin.
  apply in_map_iff in Hin as (i & <- & _). rewrite length_fmap. apply length_seq.
Qed.

(** What [simulate] returns has one row per simulation and one column per
    period; it raises only the error of the random generator. *)
Lemma simulate_shape (self : MonteCarloSimulation)
    (num_simulations num_periods : option nat) :
  match MonteCarlo.simulate sqrtQ draws self num_simulations num_periods with
  | Ok r =>
      length (simulations r) = default 10000%nat num_simulations /\
      Forall (fun row => length row = default 252%nat num_periods)
        (simulations r) /\
      length (portfolio_values r) = default 10000%nat num_simulations /\
      Forall (fun row => length row = default 252%nat num_periods)
        (portfolio_values r)
  | Raise e => e = ValueError "scale < 0"
  end.
Proof.
  unfold MonteCarlo.simulate.
  generalize (default 10000%nat num_simulations) as rows.
  generalize (default 252%nat num_periods) as cols. intros cols rows.
  cbv zeta.
  destruct (random_normal draws (mean (returns self))
              (std sqrtQ (returns self)) rows cols) as [m|e] eqn:Hm.
  - cbn [bind simulations portfolio_values].
    destruct (random_normal_shape _ _ _ _ _ Hm) as [Hlen Hrows].
    split; [exact Hlen|]. split; [exact Hrows|].
    split; [rewrite length_fmap; exact Hlen|].
    apply List.Forall_forall. intros row Hin.
    apply in_map_iff in Hin as (sim & <- & Hsim).
    rewrite cumprod_length, length_fmap.
    rewrite List.Forall_forall in Hrows. apply Hrows, Hsim.
  - cbn [bind]. unfold random_normal in Hm.
    destruct (ltb _ _); [|discriminate]. injection Hm as <-. reflexivity.
Qed.

(** The shape of what the Monte Carlo stage returns. *)
Lemma monte_carlo_stage_shape_aux (self : @Framework A S R) (s : S) :
  match stage_monte_carlo sqrtQ draws self s with
  | Ok r =>
      length (simulations r) = 10000%nat /\
      Forall (fun row => length row = 252%nat) (simulations r) /\
      length (portfolio_values r) = 10000%nat /\
      Forall (fun row => length row = 252%nat) (portfolio_values r)
  | Raise e => e = ValueError "scale < 0"
  end.
Proof.
  unfold stage_monte_carlo.
  apply (simulate_shape {| returns := strategy_returns (strategy self) s |}
           None None).
Qed.


(** The same for a whole run: the report of a run that completes holds a
    simulation of 10000 paths of 252 periods. *)
Lemma run_monte_carlo_shape {TestResult : Type}
    (stats : Validator.StatsLibrary TestResult)
    (self : @Framework A S R) (s : S) :
  match run_comprehensive_backtest sqrtQ draws stats self s with
  | Ok (report, _) =>
      length (simulations (monte_carlo_simulation report)) = 10000%nat /\
      length (portfolio_values (monte_carlo_simulation report)) = 10000%nat
  | Raise _ => True
  end.
Proof.
  unfold run_comprehensive_backtest.
  destruct (stage_walk_forward self s) as [[results s']|e]; [|exact I].
  cbn [bind].
  pose proof (monte_carlo_stage_shape_aux self s') as Hmc.
  destruct (stage_monte_carlo sqrtQ draws self s') as [mc|e]; [|exact I].
  cbn [bind].
  destruct (stage_risk sqrtQ self s'); [|exact I]. cbn [bind].
  destruct (stage_validation stats self s'); [|exact I]. cbn [bind].
  destruct (stage_costs self s'); [|exact I]. cbn [bind monte_carlo_simulation].
  tauto.
Qed.

End OrchestratorClaims.

(** * The simulation on small samples *)



(** * Further properties of the walk-forward splitter *)
Section WalkForwardCoverage.
Import WalkForward.
Context {A : Type}.
Implicit Types (d l : list A).

(** Cutting [l] into consecutive blocks of [h] items, the last one as long
    as what is left, and gluing the blocks again gives [l] back. *)
Lemma blocks_tile l (h n : nat) :
  (0 < h)%nat -> (length l <= n * h)%nat ->
  concat ((fun i : nat => take h (drop (i * h) l)) <$> seq 0 n) = l.
Proof.
  intros Hh. revert l. induction n as [|n IH]; intros l Hlen.
  - destruct l; [reflexivity|simpl in Hlen; lia].
  - rewrite <- cons_seq, <- fmap_S_seq. cbn [fmap list_fmap concat].
    fold (list_fmap nat nat S (seq 0 n)).
    rewrite <- list_fmap_compose. simpl drop.
    transitivity (take h l ++ drop h l); [|apply take_drop]. f_equal.
    etransitivity; [|apply (IH (drop h l)); rewrite length_drop; lia].
    f_equal. apply list_fmap_ext. intros _ i _. simpl.
    rewrite drop_drop. f_equal; f_equal; lia.
Qed.

Lemma range_covers (n step : Z) :
  0 < step -> n <= Z.of_nat (Z.to_nat (range_length 0 n step)) * step.
Proof.
  intros Hs. destruct (Z.lt_ge_cases 0 n) as [Hn|Hn].
  - rewrite range_length_forward by lia.
    assert (0 <= (n - 1) / step) by (apply Z.div_pos; lia).
    rewrite Z2Nat.id by lia.
    pose proof (Z.mod_pos_bound (n - 1) step Hs) as Hm.
    pose proof (Z.div_mod (n - 1) step ltac:(lia)) as Hdm. nia.
  - rewrite range_length_empty by lia. simpl. lia.
Qed.

Lemma split_at_take_drop (self : WalkForwardAnalysis A) (i : nat) :
  0 <= window_size self -> 0 <= forecast_horizon self ->
  split_at self (0 + Z.of_nat i * forecast_horizon self) =
    (take (Z.to_nat (window_size self))
       (drop (i * Z.to_nat (forecast_horizon self)) (data self)),
     take (Z.to_nat (forecast_horizon self))
       (drop (i * Z.to_nat (forecast_horizon self))
          (drop (Z.to_nat (window_size self)) (data self)))).
Proof.
  intros HW HH. unfold split_at. cbv zeta.
  rewrite !slice_take_drop by nia. rewrite drop_drop.
  f_equal; f_equal; f_equal; nia.
Qed.

(** Every yielded pair is one contiguous block of the series: the test
    slice starts exactly where the train slice ends, so the two, joined, are
    the items from position [i * H] up to [i * H + W + H], or up to the end
    of the series. *)
Theorem walk_forward_pairs_contiguous d (W H : Z) :
  1 <= W -> 1 <= H ->
  exists ps,
    generate_walk_forward_splits
      {| data := d; window_size := W; forecast_horizon := H |} = Ok ps /\
    forall (i : nat) (train test : list A),
      ps !! i = Some (train, test) ->
      train ++ test = take (Z.to_nat (W + H)) (drop (i * Z.to_nat H) d).
Proof.
  intros HW HH. eexists. split; [apply splits_ok; simpl; lia|].
  intros i train test Hi. cbn [data window_size forecast_horizon] in Hi.
  rewrite !list_lookup_fmap in Hi.
  destruct (seq 0 _ !! i) as [j|] eqn:Hj; [|discriminate].
  apply lookup_seq in Hj as [-> _]. simpl in Hi.
  pose proof (split_at_take_drop
                {| data := d; window_size := W; forecast_horizon := H |} i
                ltac:(simpl; lia) ltac:(simpl; lia)) as Hs.
  cbn [data window_size forecast_horizon] in Hs.
  rewrite Hs in Hi. injection Hi as <- <-.
  rewrite (drop_drop d), (Nat.add_comm (Z.to_nat W)), <- (drop_drop d).
  rewrite take_take_drop. f_equal. lia.
Qed.

(** The test slices, in the order they are yielded, tile the series after
    its first [W] observations: joined they are exactly [data[W:]], so each
    observation from position [W] on is tested once and only once. *)
Theorem walk_forward_tests_tile d (W H : Z) :
  0 <= W -> 1 <= H ->
  exists ps,
    generate_walk_forward_splits
      {| data := d; window_size := W; forecast_horizon := H |} = Ok ps /\
    concat (snd <$> ps) = drop (Z.to_nat W) d.
Proof.
  intros HW HH. eexists. split; [apply splits_ok; simpl; lia|].
  cbn [data window_size forecast_horizon].
  rewrite <- !list_fmap_compose.
  etransitivity;
    [|apply (blocks_tile (drop (Z.to_nat W) d) (Z.to_nat H)
               (Z.to_nat (range_length 0 (Z.of_nat (length d) - W) H)))].
  - f_equal. apply list_fmap_ext. intros _ i _. unfold compose.
    pose proof (split_at_take_drop
                  {| data := d; window_size := W; forecast_horizon := H |} i
                  ltac:(simpl; lia) ltac:(simpl; lia)) as Hs.
    cbn [data window_size forecast_horizon] in Hs. rewrite Hs. reflexivity.
  - lia.
  - rewrite length_drop.
    pose proof (range_covers (Z.of_nat (length d) - W) H ltac:(lia)). nia.
Qed.

End WalkForwardCoverage.

(** The two pairs on five observations with [W = 2] and [H = 2]. *)
Lemma walk_forward_pairs_contiguous_witness :
  exists ps,
    WalkForward.generate_walk_forward_splits
      {| WalkForward.data := Samples.history5;
         WalkForward.window_size := 2;
         WalkForward.forecast_horizon := 2 |} = Ok ps /\
    forall (i : nat) (train test : list Z),
      ps !! i = Some (train, test) ->
      train ++ test
        = take (Z.to_nat (2 + 2)) (drop (i * Z.to_nat 2) Samples.history5).
Proof. apply (walk_forward_pairs_contiguous Samples.history5 2 2); lia. Defined.

(** On 300 observations with [W = 252] and [H = 21], the three test slices
    are the last 48 observations. *)
Lemma walk_forward_tests_tile_witness :
  exists ps,
    WalkForward.generate_walk_forward_splits
      {| WalkForward.data := Samples.history300;
         WalkForward.window_size := 252;
         WalkForward.forecast_horizon := 21 |} = Ok ps /\
    concat (snd <$> ps) = drop (Z.to_nat 252) Samples.history300.
Proof. apply (walk_forward_tests_tile Samples.history300 252 21); lia. Defined.

(** * Further properties of the transaction cost model *)
Section CostEdges.
Import Np Cost Exact Finite.
Local Open Scope Q_scope.

(** The five look-ups of [estimate_transaction_costs] happen in a fixed
    order: the columns [spread] and [volume] of the trades, then the rates
    [commission_rate], [slippage_rate] and [market_impact_rate] of the
    broker configuration. The first key that is missing is the one the
    [KeyError] names; with all five present the estimate returns. *)
Theorem transaction_costs_first_missing_key (self : TransactionCostModeler)
    (trades : gmap string (list npf)) :
  let est := estimate_transaction_costs self trades in
  match trades !! "spread", trades !! "volume",
        broker_config self !! "commission_rate",
        broker_config self !! "slippage_rate",
        broker_config self !! "market_impact_rate" with
  | None, _, _, _, _ => est = Raise (KeyError "spread")
  | Some _, None, _, _, _ => est = Raise (KeyError "volume")
  | Some _, Some _, None, _, _ => est = Raise (KeyError "commission_rate")
  | Some _, Some _, Some _, None, _ => est = Raise (KeyError "slippage_rate")
  | Some _, Some _, Some _, Some _, None =>
      est = Raise (KeyError "market_impact_rate")
  | Some _, Some _, Some _, Some _, Some _ => Py.is_ok est = true
  end.
Proof.
  intros est. subst est.
  unfold estimate_transaction_costs, calculate_spread_cost,
    calculate_commission, estimate_slippage, calculate_market_impact, getitem.
  destruct (trades !! "spread"); [|reflexivity].
  destruct (trades !! "volume"); [|reflexivity].
  destruct (broker_config self !! "commission_rate"); [|reflexivity].
  destruct (broker_config self !! "slippage_rate"); [|reflexivity].
  destruct (broker_config self !! "market_impact_rate"); reflexivity.
Qed.




Lemma row_share_zero_volume (c s m T : Q) (sp vol : list Q) :
  T == 0 ->
  Forall (fun x => is_finite x = false)
    (zip_with (fun a v => div (row_cost (Fin c) (Fin s) (Fin m) a v) (Fin T))
       (Fin <$> sp) (Fin <$> vol)).
Proof.
  intros HT. revert vol. induction sp as [|a sp IH]; intros [|v vol];
    try constructor; [|apply IH].
  unfold row_cost. cbn [add mul]. rewrite div_by_zero by exact HT.
  destruct (_ ?= 0); reflexivity.
Qed.

(** A total volume of zero is no error: the estimate returns, and every
    entry of [total_cost_percentage] is the result of a division by zero, an
    infinity or [NaN]. *)
Theorem zero_total_volume_is_no_error (self : TransactionCostModeler)
    (trades : gmap string (list npf)) (sp vol : list Q) (c s m : Q) :
  trades !! "spread" = Some (Fin <$> sp) ->
  trades !! "volume" = Some (Fin <$> vol) ->
  length sp = length vol ->
  broker_config self !! "commission_rate" = Some (Fin c) ->
  broker_config self !! "slippage_rate" = Some (Fin s) ->
  broker_config self !! "market_impact_rate" = Some (Fin m) ->
  Qsum vol == 0 ->
  exists report entries,
    estimate_transaction_costs self trades = Ok report /\
    total_cost_percentage report = Series entries /\
    length entries = length vol /\
    Forall (fun x => is_finite x = false) entries.
Proof.
  intros Hsp Hvol Hlen Hc Hs Hm HT.
  destruct (total_cost_percentage_series self trades _ _ _ _ _
              Hsp Hvol Hc Hs Hm) as (report & Hrep & Htcp).
  exists report. eexists. split; [exact Hrep|].
  split; [exact Htcp|]. split.
  - rewrite length_zip_with, !length_fmap. lia.
  - rewrite sum_fin. apply row_share_zero_volume, HT.
Qed.

End CostEdges.

(** * Further properties of the risk decomposition *)
Section RiskEdges.
Import Np Exact Risk Finite.
Local Open Scope Q_scope.
Variable sqrtQ : Q -> Q.

(** Beta is the least-squares slope of the returns on the benchmark,
    [sum(dr * db) / sum(db * db)] over the deviations from the means, times
    [N / (N - 1)]: the sample covariance over the population variance. *)
Theorem beta_is_slope_times_bessel_factor (rs bs : list Q) :
  length rs = length bs -> (2 <= length rs)%nat -> ~ Qss bs == 0 ->
  exists beta,
    calculate_beta
      {| returns := Fin <$> rs; benchmark_returns := Fin <$> bs |}
      = Ok (Fin beta) /\
    beta == Qcount bs / (Qcount bs - 1)
            * (Qsum (zip_with Qmult (Qdev rs) (Qdev bs)) / Qss bs).
Proof.
  intros Hlen Hn Hss. unfold calculate_beta. cbn [returns benchmark_returns].
  rewrite cov01_fin by auto. cbn [bind].
  assert (Hne : bs <> []) by (destruct bs; [simpl in Hlen; lia|discriminate]).
  rewrite var_fin by assumption.
  pose proof (Qcount_pos bs Hne) as Hp.
  assert (Hc : 2 <= Qcount bs).
  { unfold Qcount. change 2 with (inject_Z 2). rewrite <- Zle_Qle. lia. }
  assert (Hv : ~ Qss bs / Qcount bs == 0).
  { intros Hz. apply Hss.
    assert (Hq : Qss bs == (Qss bs / Qcount bs) * Qcount bs) by (field; lra).
    rewrite Hq, Hz. ring. }
  rewrite div_fin by exact Hv.
  eexists. split; [reflexivity|].
  rewrite Hlen, (Qcount_pred bs) by lia.
  field; repeat split; first [lra | exact Hss].
Qed.

Lemma Qsum_fmap_ext (f g : Q -> Q) (qs : list Q) :
  (forall x, f x == g x) -> Qsum (f <$> qs) == Qsum (g <$> qs).
Proof.
  intros Hfg. induction qs as [|q qs IH]; [reflexivity|].
  cbn [fmap list_fmap]. unfold Qsum in *. cbn [foldr].
  fold (list_fmap Q Q f qs). fold (list_fmap Q Q g qs).
  rewrite IH, Hfg. reflexivity.
Qed.

Lemma scaled_sum (k : Q) (qs : list Q) :
  Qsum ((fun r => k * r) <$> qs) == k * Qsum qs.
Proof.
  induction qs as [|q qs IH]; [unfold Qsum; simpl; ring|].
  cbn [fmap list_fmap]. unfold Qsum in *. cbn [foldr].
  fold (list_fmap Q Q (fun r => k * r) qs). rewrite IH. ring.
Qed.

(** With a volatility that is finite and not zero, the risk contributions
    of a sample of finite returns are [return_i / (N * volatility)], one per
    observation; they add up to the mean return over the volatility. *)
Theorem risk_contributions_add_up (self : RiskDecomposition)
    (qs : list Q) (sigma : Q) :
  returns self = Fin <$> qs -> qs <> [] ->
  std sqrtQ (returns self) = Fin sigma -> ~ sigma == 0 ->
  exists cs,
    calculate_risk_contribution sqrtQ self = Fin <$> cs /\
    cs = (fun r => 1 / Qcount qs * r / sigma) <$> qs /\
    Qsum cs == Qmean qs / sigma.
Proof.
  intros Hret Hne Hstd Hsigma. unfold calculate_risk_contribution.
  rewrite Hstd, Hret, length_fmap. unfold of_nat. fold (Qcount qs).
  pose proof (Qcount_nonzero qs Hne) as HN.
  rewrite div_fin by exact HN.
  eexists. split; [|split; [reflexivity|]].
  - rewrite <- !list_fmap_compose. apply list_fmap_ext. intros _ r _.
    unfold compose. cbn [mul]. apply div_fin, Hsigma.
  - rewrite (Qsum_fmap_ext _ (fun r => (1 / Qcount qs / sigma) * r))
      by (intros x; field; split; assumption).
    rewrite scaled_sum. unfold Qmean. field. split; assumption.
Qed.

Lemma div_by_zero_not_finite (x : npf) (v : Q) :
  v == 0 -> is_finite (div x (Fin v)) = false.
Proof.
  intros Hv. destruct x as [a| | |]; cbn [div].
  - apply Qeq_bool_iff in Hv. rewrite Hv. destruct (a ?= 0); reflexivity.
  - apply Qeq_bool_iff in Hv. rewrite Hv. reflexivity.
  - apply Qeq_bool_iff in Hv. rewrite Hv. reflexivity.
  - reflexivity.
Qed.

(** A volatility of exactly zero is no error: [calculate_risk_contribution]
    returns one entry per observation, each the result of a division by
    zero, an infinity or [NaN]. *)
Theorem risk_contribution_of_flat_returns (self : RiskDecomposition)
    (sigma : Q) :
  std sqrtQ (returns self) = Fin sigma -> sigma == 0 ->
  length (calculate_risk_contribution sqrtQ self) = length (returns self) /\
  Forall (fun x => is_finite x = false)
    (calculate_risk_contribution sqrtQ self).
Proof.
  intros Hstd Hsigma. unfold calculate_risk_contribution. rewrite Hstd.
  split; [apply length_fmap|].
  apply List.Forall_forall. intros x Hx.
  apply in_map_iff in Hx as (r & <- & _).
  apply div_by_zero_not_finite, Hsigma.
Qed.

(** [decompose_risk] fails in one case only, series of different lengths,
    with the [ValueError] of [np.cov]; for series of one length it returns,
    and the specific risk and the risk contribution have one entry per
    observation. *)
Theorem decompose_risk_length_mismatch (self : RiskDecomposition) :
  if (length (returns self) =? length (benchmark_returns self))%nat
  then exists report,
         decompose_risk sqrtQ self = Ok report /\
         length (specific_risk report) = length (returns self) /\
         length (risk_contribution report) = length (returns self)
  else decompose_risk sqrtQ self = Raise (ValueError
    "all the input array dimensions except for the concatenation axis must match exactly").
Proof.
  unfold decompose_risk, calculate_specific_risk, calculate_beta, cov01.
  destruct (Nat.eqb_spec (length (returns self))
              (length (benchmark_returns self))) as [Heq|Hne];
    cbn [negb bind]; [|reflexivity].
  eexists. split; [reflexivity|]. cbn [specific_risk risk_contribution].
  split.
  - rewrite length_zip_with, length_fmap. lia.
  - unfold calculate_risk_contribution. apply length_fmap.
Qed.

End RiskEdges.

(** * Further properties of the Monte Carlo simulation *)
Section SimulationShape.
Import Np Exact MonteCarlo Finite.
Local Open Scope Q_scope.
Variable sqrtQ : Q -> Q.
Variable draws : nat -> Q.


Lemma simulate_paths (self : MonteCarloSimulation)
    (num_simulations num_periods : option nat) (r : SimulationResult) :
  simulate sqrtQ draws self num_simulations num_periods = Ok r ->
  portfolio_values r
    = (fun row => cumprod (add (Fin 1) <$> row)) <$> simulations r /\
  confidence_intervals r
    = calculate_confidence_intervals self (portfolio_values r).
Proof.
  unfold simulate.
  generalize (default 10000%nat num_simulations) as rows.
  generalize (default 252%nat num_periods) as cols. intros cols rows.
  cbv zeta.
  destruct (random_normal draws (mean (returns self))
              (std sqrtQ (returns self)) rows cols) as [m|e];
    [|discriminate].
  cbn [bind]. intros [= <-]. split; reflexivity.
Qed.


Lemma cumprod_from_lookup_0 (acc : npf) (l : list npf) :
  cumprod_from acc l !! 0%nat = mul acc <$> l !! 0%nat.
Proof. destruct l; reflexivity. Qed.

Lemma cumprod_from_lookup_S (acc : npf) (l : list npf) (t : nat) (v x : npf) :
  cumprod_from acc l !! t = Some v -> l !! S t = Some x ->
  cumprod_from acc l !! S t = Some (mul v x).
Proof.
  revert acc t. induction l as [|y l IH]; intros acc t Hv Hx; [discriminate|].
  destruct t as [|t]; simpl in *.
  - injection Hv as <-. rewrite cumprod_from_lookup_0, Hx. reflexivity.
  - apply IH; assumption.
Qed.

Lemma cumprod_lookup_S (l : list npf) (t : nat) (v x : npf) :
  cumprod l !! t = Some v -> l !! S t = Some x ->
  cumprod l !! S t = Some (mul v x).
Proof.
  destruct l as [|y l]; [discriminate|]. intros Hv Hx.
  destruct t as [|t]; simpl in *.
  - injection Hv as <-. rewrite cumprod_from_lookup_0, Hx. reflexivity.
  - apply cumprod_from_lookup_S; assumption.
Qed.

(** The portfolio values compound the simulated returns of their row: the
    first value is [1 + r] for the first return [r], and each later value is
    the value before it times [1 + r] for the return [r] of its period. *)
Theorem portfolio_values_compound (self : MonteCarloSimulation)
    (num_simulations num_periods : option nat) (r : SimulationResult) :
  simulate sqrtQ draws self num_simulations num_periods = Ok r ->
  forall (i : nat) (returns_i values_i : list npf),
    simulations r !! i = Some returns_i ->
    portfolio_values r !! i = Some values_i ->
    values_i !! 0%nat = add (Fin 1) <$> returns_i !! 0%nat /\
    forall (t : nat) (v x : npf),
      values_i !! t = Some v -> returns_i !! S t = Some x ->
      values_i !! S t = Some (mul v (add (Fin 1) x)).
Proof.
  intros Hsim i srow prow Hs Hp.
  destruct (simulate_paths self _ _ r Hsim) as [Hpv _].
  rewrite Hpv, list_lookup_fmap, Hs in Hp. injection Hp as <-. split.
  - destruct srow; reflexivity.
  - intros t v x Hv Hx. apply cumprod_lookup_S; [exact Hv|].
    rewrite list_lookup_fmap, Hx. reflexivity.
Qed.


End SimulationShape.

Section BandBounds.
Import Np Exact MonteCarlo.
Local Open Scope Q_scope.
Variable sqrtQ : Q -> Q.
Variable draws : nat -> Q.



End BandBounds.

(** * Further properties of the statistical validator *)
Section CorrelationFacts.
Import Np Exact Validator.
Local Open Scope Q_scope.



End CorrelationFacts.

(** * Further properties of the orchestrator *)
Section OrchestratorFlow.
Import Np Orchestrator.
Context {A S R TestResult : Type}.
Variable sqrtQ : Q -> Q.
Variable draws : nat -> Q.
Variable stats : Validator.StatsLibrary TestResult.
Implicit Types (self : @Framework A S R) (s : S).

(** The walk-forward configuration is read before anything else is done: a
    missing [window_size], then a missing [forecast_horizon], then a
    forecast horizon of 0 end the run with their own error, whatever the
    strategy, the data and the rest of the configuration are. *)
Theorem backtest_reads_window_config_first self s :
  let run := run_comprehensive_backtest sqrtQ draws stats self s in
  (config self !! "window_size" = None ->
   run = Raise (KeyError "window_size")) /\
  (forall W : Z,
     config self !! "window_size" = Some (CfgInt W) ->
     config self !! "forecast_horizon" = None ->
     run = Raise (KeyError "forecast_horizon")) /\
  (forall W : Z,
     config self !! "window_size" = Some (CfgInt W) ->
     config self !! "forecast_horizon" = Some (CfgInt 0) ->
     run = Raise (ValueError "range() arg 3 must not be zero")).
Proof.
  intros run. subst run.
  unfold run_comprehensive_backtest, stage_walk_forward, config_int,
    Cost.getitem.
  split; [intros ->; reflexivity|]. split.
  - intros W -> ->. reflexivity.
  - intros W -> ->. reflexivity.
Qed.

Lemma stage_walk_forward_pairs self s (W H : Z) :
  config self !! "window_size" = Some (CfgInt W) ->
  config self !! "forecast_horizon" = Some (CfgInt H) ->
  stage_walk_forward self s =
    let* pairs :=
      WalkForward.generate_walk_forward_splits
        {| WalkForward.data := data self;
           WalkForward.window_size := W;
           WalkForward.forecast_horizon := H |} in
    walk_forward_loop (strategy self) pairs s.
Proof.
  intros HW HH. unfold stage_walk_forward, config_int, Cost.getitem.
  rewrite HW, HH. reflexivity.
Qed.

Lemma walk_forward_loop_results (strat : @Strategy A S R)
    (pairs : list (list A * list A)) s (results : list R) (s' : S) :
  walk_forward_loop strat pairs s = Ok (results, s') ->
  Forall2 (fun pair result =>
             exists s0 s1 s2,
               train strat s0 pair.1 = Ok s1 /\
               simulate strat s1 pair.2 = Ok (result, s2))
    pairs results.
Proof.
  revert s results s'.
  induction pairs as [|[train_data test_data] pairs IH];
    intros s results s' Hloop.
  - injection Hloop as <- <-. constructor.
  - cbn [walk_forward_loop] in Hloop.
    destruct (train strat s train_data) as [s1|e] eqn:Htrain;
      [|discriminate].
    cbn [bind] in Hloop.
    destruct (simulate strat s1 test_data) as [[res s2]|e] eqn:Hsim;
      [|discriminate].
    cbn [bind] in Hloop.
    destruct (walk_forward_loop strat pairs s2) as [[rest s3]|e] eqn:Hrest;
      [|discriminate].
    cbn [bind] in Hloop. injection Hloop as <- <-.
    constructor; [|eapply IH; exact Hrest].
    exists s, s1, s2. split; assumption.
Qed.

(** A walk-forward stage that completes holds one result per window pair,
    in the order of the pairs: the result at each position is what the
    strategy's [simulate] returned on the test slice of the pair at that
    position, after a [train] on its train slice. With a forecast horizon
    [H >= 1] that is [ceil((N - W) / H)] results for [W < N], and none
    otherwise. *)
Theorem walk_forward_results_follow_windows self s (W H : Z)
    (results : list R) (s' : S) :
  config self !! "window_size" = Some (CfgInt W) ->
  config self !! "forecast_horizon" = Some (CfgInt H) ->
  1 <= H ->
  stage_walk_forward self s = Ok (results, s') ->
  exists pairs,
    WalkForward.generate_walk_forward_splits
      {| WalkForward.data := data self;
         WalkForward.window_size := W;
         WalkForward.forecast_horizon := H |} = Ok pairs /\
    Forall2 (fun pair result =>
               exists s0 s1 s2,
                 train (strategy self) s0 pair.1 = Ok s1 /\
                 simulate (strategy self) s1 pair.2 = Ok (result, s2))
      pairs results /\
    Z.of_nat (length results) =
      (if W <? Z.of_nat (length (data self))
       then (Z.of_nat (length (data self)) - W + H - 1) / H
       else 0).
Proof.
  intros HW HH H1 Hstage.
  rewrite (stage_walk_forward_pairs self s W H HW HH) in Hstage.
  rewrite splits_ok in Hstage by (simpl; lia). cbn [bind] in Hstage.
  eexists. split; [apply splits_ok; simpl; lia|].
  pose proof (walk_forward_loop_results _ _ _ _ _ Hstage) as Hall.
  split; [exact Hall|].
  rewrite <- (Forall2_length _ _ _ Hall), !length_fmap, length_seq.
  cbn [WalkForward.data WalkForward.window_size WalkForward.forecast_horizon].
  destruct (Z.ltb_spec W (Z.of_nat (length (data self)))) as [Hlt|Hge].
  - rewrite range_length_forward by lia. rewrite ceil_as_floor by lia.
    rewrite Z2Nat.id; [f_equal; lia|]. apply Z.div_pos; lia.
  - rewrite range_length_empty by lia. reflexivity.
Qed.

(** A series that is not longer than the training window is no error: the
    walk-forward stage returns no results and leaves the strategy as it
    was, never trained. *)
Theorem walk_forward_without_windows self s (W H : Z) :
  config self !! "window_size" = Some (CfgInt W) ->
  config self !! "forecast_horizon" = Some (CfgInt H) ->
  1 <= H -> Z.of_nat (length (data self)) <= W ->
  stage_walk_forward self s = Ok ([], s).
Proof.
  intros HW HH H1 Hshort.
  rewrite (stage_walk_forward_pairs self s W H HW HH).
  rewrite splits_ok by (simpl; lia).
  cbn [WalkForward.data WalkForward.window_size WalkForward.forecast_horizon].
  rewrite range_length_empty by lia. reflexivity.
Qed.

(** An exception of the strategy ends the run and is what the run raises:
    when [train] fails on the first train slice, the first [W] observations,
    no report is returned. *)
Theorem strategy_error_ends_backtest self s (W H : Z) (e : Py.exn) :
  config self !! "window_size" = Some (CfgInt W) ->
  config self !! "forecast_horizon" = Some (CfgInt H) ->
  1 <= H -> 0 <= W < Z.of_nat (length (data self)) ->
  train (strategy self) s (take (Z.to_nat W) (data self)) = Raise e ->
  run_comprehensive_backtest sqrtQ draws stats self s = Raise e.
Proof.
  intros HW HH H1 [HW0 Hlong] Htrain. unfold run_comprehensive_backtest.
  rewrite (stage_walk_forward_pairs self s W H HW HH).
  rewrite splits_ok by (simpl; lia).
  cbn [WalkForward.data WalkForward.window_size WalkForward.forecast_horizon].
  rewrite range_length_forward by lia.
  assert (Hq : 0 <= (Z.of_nat (length (data self)) - W - 1) / H)
    by (apply Z.div_pos; lia).
  destruct (Z.to_nat (1 + (Z.of_nat (length (data self)) - W - 1) / H))
    as [|n] eqn:Hn; [lia|].
  rewrite <- cons_seq. cbn [fmap list_fmap bind].
  pose proof (split_at_take_drop
                {| WalkForward.data := data self;
                   WalkForward.window_size := W;
                   WalkForward.forecast_horizon := H |} 0
                ltac:(simpl; lia) ltac:(simpl; lia)) as Hsplit.
  cbn [WalkForward.data WalkForward.window_size WalkForward.forecast_horizon]
    in Hsplit.
  rewrite Hsplit.
  cbn [walk_forward_loop]. rewrite Nat.mul_0_l, !drop_0.
  cbn [fst snd]. rewrite Htrain. reflexivity.
Qed.

End OrchestratorFlow.

(** * The further properties on the sample inputs *)


(** Two trades without volume. *)
Lemma zero_total_volume_is_no_error_witness :
  exists report entries,
    Cost.estimate_transaction_costs
      {| Cost.broker_config := Samples.broker |} Cases.idle_ledger
      = Ok report /\
    Cost.total_cost_percentage report = Cost.Series entries /\
    length entries = length [0; 0]%Q /\
    Forall (fun x => Finite.is_finite x = false) entries.
Proof.
  apply (zero_total_volume_is_no_error
           {| Cost.broker_config := Samples.broker |} Cases.idle_ledger
           [1 # 100; 2 # 100]%Q [0; 0]%Q
           (1 # 1000) (5 # 10000) (1 # 10000));
    reflexivity.
Defined.

(** The returns [0.25, -0.25] against the benchmark [0.05, 0.15]. *)
Lemma beta_is_slope_times_bessel_factor_witness :
  exists beta,
    Risk.calculate_beta
      {| Risk.returns := Np.Fin <$> [0.25; -0.25]%Q;
         Risk.benchmark_returns := Np.Fin <$> [0.05; 0.15]%Q |}
      = Ok (Np.Fin beta) /\
    (beta == Exact.Qcount [0.05; 0.15] / (Exact.Qcount [0.05; 0.15] - 1)
             * (Exact.Qsum (zip_with Qmult (Exact.Qdev [0.25; -0.25])
                              (Exact.Qdev [0.05; 0.15]))
                / Exact.Qss [0.05; 0.15]))%Q.
Proof.
  apply (beta_is_slope_times_bessel_factor [0.25; -0.25]%Q [0.05; 0.15]%Q);
    [reflexivity | simpl; lia | intros H; vm_compute in H; discriminate].
Defined.

(** The returns [0.25, -0.25] with the sample square root. *)
Lemma risk_contributions_add_up_witness :
  exists sigma,
    Np.std Samples.sqrt_newton (Np.Fin <$> [0.25; -0.25]%Q) = Np.Fin sigma /\
    exists cs,
      Risk.calculate_risk_contribution Samples.sqrt_newton
        {| Risk.returns := Np.Fin <$> [0.25; -0.25]%Q;
           Risk.benchmark_returns := [] |} = Np.Fin <$> cs /\
      cs = (fun r => 1 / Exact.Qcount [0.25; -0.25] * r / sigma)%Q
             <$> [0.25; -0.25]%Q /\
      (Exact.Qsum cs == Exact.Qmean [0.25; -0.25] / sigma)%Q.
Proof.
  eexists. split; [vm_compute; reflexivity|].
  eapply (risk_contributions_add_up Samples.sqrt_newton
            {| Risk.returns := Np.Fin <$> [0.25; -0.25]%Q;
               Risk.benchmark_returns := [] |} [0.25; -0.25]%Q);
    [reflexivity | discriminate | vm_compute; reflexivity
    | intros H; vm_compute in H; discriminate].
Defined.

(** The constant returns [0.05, 0.05]. *)
Lemma risk_contribution_of_flat_returns_witness :
  length (Risk.calculate_risk_contribution Samples.sqrt_newton
            {| Risk.returns := Samples.flat_benchmark;
               Risk.benchmark_returns := [] |})
    = length Samples.flat_benchmark /\
  Forall (fun x => Finite.is_finite x = false)
    (Risk.calculate_risk_contribution Samples.sqrt_newton
       {| Risk.returns := Samples.flat_benchmark;
          Risk.benchmark_returns := [] |}).
Proof.
  eapply (risk_contribution_of_flat_returns Samples.sqrt_newton
            {| Risk.returns := Samples.flat_benchmark;
               Risk.benchmark_returns := [] |});
    [vm_compute; reflexivity | reflexivity].
Defined.

(** Three paths of two periods from the returns [0.25, -0.25]. *)
Lemma portfolio_values_compound_witness :
  exists r,
    MonteCarlo.simulate Samples.sqrt_newton Samples.sample_draws
      {| MonteCarlo.returns := Samples.returns2 |}
      (Some 3%nat) (Some 2%nat) = Ok r /\
    forall (i : nat) (returns_i values_i : list Np.npf),
      MonteCarlo.simulations r !! i = Some returns_i ->
      MonteCarlo.portfolio_values r !! i = Some values_i ->
      values_i !! 0%nat = Np.add (Np.Fin 1) <$> returns_i !! 0%nat /\
      forall (t : nat) (v x : Np.npf),
        values_i !! t = Some v -> returns_i !! S t = Some x ->
        values_i !! S t = Some (Np.mul v (Np.add (Np.Fin 1) x)).
Proof.
  eexists. split; [vm_compute; reflexivity|].
  apply (portfolio_values_compound Samples.sqrt_newton Samples.sample_draws
           {| MonteCarlo.returns := Samples.returns2 |}
           (Some 3%nat) (Some 2%nat)).
  vm_compute. reflexivity.
Defined.



(** Five observations with [W = 2] and [H = 2]: two windows, with test
    slices of two and of one observation. *)
Lemma walk_forward_results_follow_windows_witness :
  exists pairs,
    WalkForward.generate_walk_forward_splits
      {| WalkForward.data := Samples.history5;
         WalkForward.window_size := 2;
         WalkForward.forecast_horizon := 2 |} = Ok pairs /\
    Forall2 (fun pair result =>
               exists s0 s1 s2,
                 Orchestrator.train Cases.counting_strategy s0 pair.1 = Ok s1 /\
                 Orchestrator.simulate Cases.counting_strategy s1 pair.2
                   = Ok (result, s2))
      pairs [2; 1]%nat /\
    Z.of_nat (length [2; 1]%nat) =
      (if 2 <? Z.of_nat (length Samples.history5)
       then (Z.of_nat (length Samples.history5) - 2 + 2 - 1) / 2
       else 0).
Proof.
  apply (walk_forward_results_follow_windows
           (Cases.small_backtest Cases.counting_strategy 2 2) 0%nat 2 2
           [2; 1]%nat 2%nat);
    [reflexivity | reflexivity | lia | reflexivity].
Defined.

(** Five observations and a window of seven. *)
Lemma walk_forward_without_windows_witness :
  Orchestrator.stage_walk_forward
    (Cases.small_backtest Cases.counting_strategy 7 2) 0%nat = Ok ([], 0%nat).
Proof.
  apply (walk_forward_without_windows
           (Cases.small_backtest Cases.counting_strategy 7 2) 0%nat 7 2);
    [reflexivity | reflexivity | lia | simpl; lia].
Defined.

(** A strategy whose training fails on the first window. *)
Lemma strategy_error_ends_backtest_witness :
  Orchestrator.run_comprehensive_backtest Samples.sqrt_newton
    Samples.sample_draws Samples.refusing_stats
    (Cases.small_backtest Cases.failing_strategy 2 2) 0%nat
  = Raise (Exn "TrainingError" "no convergence").
Proof.
  apply (strategy_error_ends_backtest Samples.sqrt_newton Samples.sample_draws
           Samples.refusing_stats
           (Cases.small_backtest Cases.failing_strategy 2 2) 0%nat 2 2);
    [reflexivity | reflexivity | lia | simpl; lia | reflexivity].
Defined.
